(** * ENGIE HR Hub headless client: session lifecycle and COA submission

    A shallow embedding of [engie_hr_mcp/login.py] (class [ENGIEHRLogin])
    and the properties of its session store, its session lifecycle manager
    and its validate-then-commit submission.

    Conventions of the embedding.
    - A method of [ENGIEHRLogin] is a computation in the monad [M]: it
      reads and updates a [World] (the object's attributes, the file
      system, the console and the log of HTTP requests) and either returns
      a value or raises a Python exception.
    - The HTTP transport is an oracle stored in the world ([server]): it
      answers each request from the exchanges made before it; every
      exchange is appended to [trace], so "no network call" is "[trace]
      unchanged".
    - Library functions the module calls but does not define (json,
      BeautifulSoup, re, urllib) are the fields of the class [Platform].
    - Python [str] is modelled by [string] (8-bit characters). *)

From Stdlib Require Import ZArith String Ascii List Bool Lia.
From stdpp Require Import base option list gmap strings.

Set Warnings "-register-all".
Local Open Scope string_scope.
Local Open Scope Z_scope.
Local Open Scope list_scope.

(** ** Python values used by the module *)

(** The exceptions that can reach one of the module's [except] clauses. *)
Inductive Exn : Type :=
| FileNotFoundError
| PermissionError
| JSONDecodeError
| ValueError
| AttributeError
| TypeError
| RequestException (msg : string).

(** The first [except] clause of [load_session]. *)
Definition is_FileNotFoundError (e : Exn) : bool :=
  match e with
  | FileNotFoundError => true
  | _ => false
  end.

(** What [json.load] and [Response.json] produce, and what [json.dump] and
    [session.post(json=...)] consume.  [JObj] lists the members of a dict
    in insertion order; [JFloat m e] is the float [m * 2^e]. *)
Inductive json : Type :=
| JNull
| JBool (b : bool)
| JInt (z : Z)
| JFloat (m e : Z)
| JStr (s : string)
| JArr (items : list json)
| JObj (members : list (string * json)).

(** Truthiness of a string: [if s:]. *)
Definition str_truthy (s : string) : bool :=
  match s with
  | EmptyString => false
  | String _ _ => true
  end.

(** Truthiness of an optional string argument: [if time_in:]. *)
Definition opt_truthy (o : option string) : bool :=
  match o with
  | Some s => str_truthy s
  | None => false
  end.

(** Truthiness of a decoded JSON value: [if result.get('d'):]. *)
Definition truthy (j : json) : bool :=
  match j with
  | JNull => false
  | JBool b => b
  | JInt z => negb (z =? 0)
  | JFloat m _ => negb (m =? 0)
  | JStr s => str_truthy s
  | JArr l => match l with [] => false | _ :: _ => true end
  | JObj l => match l with [] => false | _ :: _ => true end
  end.

(** [d[k] = v] on a dict kept as its item list: an existing key keeps its
    position and takes the new value, a new key is appended. *)
Fixpoint dict_set {V : Type} (k : string) (v : V) (d : list (string * V))
  : list (string * V) :=
  match d with
  | [] => [(k, v)]
  | (k', v') :: r =>
      if String.eqb k k' then (k, v) :: r else (k', v') :: dict_set k v r
  end.

(** [d.get(k)]: [None] when the key is missing. *)
Fixpoint dict_get {V : Type} (k : string) (d : list (string * V)) : option V :=
  match d with
  | [] => None
  | (k', v) :: r => if String.eqb k k' then Some v else dict_get k r
  end.

(** ** Strings *)

(** [needle in hay] on strings. *)
Fixpoint py_in (needle hay : string) : bool :=
  String.prefix needle hay ||
  match hay with
  | EmptyString => false
  | String _ rest => py_in needle rest
  end.

Definition is_digit (c : ascii) : bool :=
  let n := Z.of_nat (nat_of_ascii c) in (48 <=? n) && (n <=? 57).

Definition digit_val (c : ascii) : Z := Z.of_nat (nat_of_ascii c) - 48.

Fixpoint all_digits (s : string) : bool :=
  match s with
  | EmptyString => true
  | String c r => is_digit c && all_digits r
  end.

(** [s.isdigit()]: non-empty and made of digits. *)
Definition isdigit (s : string) : bool := str_truthy s && all_digits s.

Fixpoint digits_value (acc : Z) (s : string) : Z :=
  match s with
  | EmptyString => acc
  | String c r => digits_value (10 * acc + digit_val c) r
  end.

(** [int(s)] on a run of digits; anything else raises [ValueError]. *)
Definition py_int (s : string) : option Z :=
  if isdigit s then Some (digits_value 0 s) else None.

Definition lower_char (c : ascii) : ascii :=
  let n := nat_of_ascii c in
  if (Nat.leb 65 n && Nat.leb n 90)%bool then ascii_of_nat (n + 32) else c.

(** [s.lower()]. *)
Fixpoint lower (s : string) : string :=
  match s with
  | EmptyString => EmptyString
  | String c r => String (lower_char c) (lower r)
  end.

Fixpoint rev_string (acc s : string) : string :=
  match s with
  | EmptyString => acc
  | String c r => rev_string (String c acc) r
  end.

Fixpoint lstrip_slash (s : string) : string :=
  match s with
  | String "/" r => lstrip_slash r
  | _ => s
  end.

(** [s.rstrip('/')]. *)
Definition rstrip_slash (s : string) : string :=
  rev_string "" (lstrip_slash (rev_string "" s)).





(** The double quote character, for the patterns that contain it. *)
Definition dquote : string := String (ascii_of_nat 34) EmptyString.

(** ** [datetime.strptime(target_date, '%Y-%m-%d')]

    The format compiles to the regular expression
    [(\d\d\d\d)-(1[0-2]|0[1-9]|[1-9])-(3[0-1]|[1-2]\d|0[1-9]|[1-9]| [1-9])],
    matched at the start of the text; text left over after the match and a
    day that the month does not have raise [ValueError]. *)

Record date := { year : Z; month : Z; day : Z }.

Definition in_range (lo hi : ascii) (c : ascii) : bool :=
  (Nat.leb (nat_of_ascii lo) (nat_of_ascii c) &&
   Nat.leb (nat_of_ascii c) (nat_of_ascii hi))%bool.

(** [%Y]: exactly four digits. *)
Definition match_Y (s : string) : option (Z * string) :=
  match s with
  | String a (String b (String c (String d r))) =>
      if is_digit a && is_digit b && is_digit c && is_digit d
      then Some (digits_value 0 (String a (String b (String c (String d "")))), r)
      else None
  | _ => None
  end.

(** [%m]: the first alternative of [1[0-2]|0[1-9]|[1-9]] that matches. *)
Definition match_m (s : string) : option (Z * string) :=
  match s with
  | String a r =>
      match r with
      | String b r' =>
          if Ascii.eqb a "1" && in_range "0" "2" b then Some (10 + digit_val b, r')
          else if Ascii.eqb a "0" && in_range "1" "9" b then Some (digit_val b, r')
          else if in_range "1" "9" a then Some (digit_val a, r)
          else None
      | EmptyString => if in_range "1" "9" a then Some (digit_val a, r) else None
      end
  | EmptyString => None
  end.

(** [%d]: the first alternative of [3[0-1]|[1-2]\d|0[1-9]|[1-9]| [1-9]]
    that matches. *)
Definition match_d (s : string) : option (Z * string) :=
  match s with
  | String a r =>
      match r with
      | String b r' =>
          if Ascii.eqb a "3" && in_range "0" "1" b then Some (30 + digit_val b, r')
          else if in_range "1" "2" a && is_digit b then Some (10 * digit_val a + digit_val b, r')
          else if Ascii.eqb a "0" && in_range "1" "9" b then Some (digit_val b, r')
          else if in_range "1" "9" a then Some (digit_val a, r)
          else if Ascii.eqb a " " && in_range "1" "9" b then Some (digit_val b, r')
          else None
      | EmptyString => if in_range "1" "9" a then Some (digit_val a, r) else None
      end
  | EmptyString => None
  end.

Definition match_dash (s : string) : option string :=
  match s with
  | String "-" r => Some r
  | _ => None
  end.

Definition is_leap (y : Z) : bool :=
  ((y mod 4 =? 0) && negb (y mod 100 =? 0)) || (y mod 400 =? 0).

Definition days_in_month (y m : Z) : Z :=
  if m =? 2 then (if is_leap y then 29 else 28)
  else if (m =? 4) || (m =? 6) || (m =? 9) || (m =? 11) then 30
  else 31.

(** [datetime.date(y, m, d)]: [ValueError] outside the calendar. *)
Definition make_date (y m d : Z) : option date :=
  if (1 <=? y) && (y <=? 9999) && (1 <=? m) && (m <=? 12)
     && (1 <=? d) && (d <=? days_in_month y m)
  then Some {| year := y; month := m; day := d |}
  else None.

(** [None] stands for the [ValueError] that [strptime] raises. *)
Definition strptime_ymd (s : string) : option date :=
  match match_Y s with
  | None => None
  | Some (y, s1) =>
      match match_dash s1 with
      | None => None
      | Some s2 =>
          match match_m s2 with
          | None => None
          | Some (m, s3) =>
              match match_dash s3 with
              | None => None
              | Some s4 =>
                  match match_d s4 with
                  | None => None
                  | Some (d, EmptyString) => make_date y m d
                  | Some (_, String _ _) => None
                  end
              end
          end
      end
  end.

(** ** The platform: library functions the module calls *)

(** A form as BeautifulSoup returns it: its [action] attribute and, for
    each [input] element in document order, its [name] and [value]
    attributes ([None] when the attribute is missing). *)
Record Form := {
  form_action : option string;
  form_inputs : list (option string * option string)
}.

Class Platform := {
  (** what a session file holds *)
  file_data : Type;
  (** [json.dump(obj, f, indent=2)]: the content written *)
  json_dump : json -> file_data;
  (** [json.load(f)]; [None] is [JSONDecodeError] *)
  json_load : file_data -> option json;
  json_load_dump : forall j, json_load (json_dump j) = Some j;
  (** [response.json()] on the body; [None] is a decoding error *)
  response_json : string -> option json;
  (** [parse_qs(urlparse(url).query)] *)
  parse_qs_url : string -> list (string * list string);
  (** [soup.find('form', {'id': 'kc-form-login'})], then its [action] *)
  find_login_form : string -> option (option string);
  (** [soup.find('form')] *)
  find_form : string -> option Form;
  (** [soup.find('span', class_='kc-feedback-text')], then its [text] *)
  find_feedback : string -> option string;
  (** [soup.find('div', class_='attendance')] is not [None] *)
  has_attendance : string -> bool;
  (** [re.findall(pattern, text, re.IGNORECASE)] for a one-group pattern *)
  re_findall_ic : string -> string -> list string;
  (** [soup.find_all('input', {'type': 'hidden'})]: names and values *)
  hidden_inputs : string -> list (option string * option string);
  (** [soup.find_all(attrs={'data-employee-id': True})]: that attribute *)
  data_employee_ids : string -> list string
}.

(** ** HTTP exchanges *)

Inductive Method : Type := GET | POST.

Inductive Body : Type :=
| NoBody
| FormData (fields : list (string * string))
| JsonBody (j : json).

(** A call of [session.get] or [session.post], with the cookie jar the
    session holds when the call is made. *)
Record Request := {
  method : Method;
  target : string;
  body : Body;
  extra_headers : list (string * string);
  allow_redirects : bool;
  sent_cookies : gmap string json
}.

Record Response := {
  status_code : Z;
  url : string;
  text : string
}.

(** What the transport does with a request: it raises or returns the final
    response, and leaves the session's cookie jar as [jar_after]. *)
Record Exchange := {
  outcome : Exn + Response;
  jar_after : gmap string json
}.

(** An entry of the network log: the request and what came of it. *)
Record Event := {
  request : Request;
  exchange : Exchange
}.

(** A value interpolated in a console message. *)
Inductive Val : Type :=
| VInt (z : Z)
| VStr (s : string)
| VExn (e : Exn)
| VJson (j : json).

(** One [print] call: the text with [{}] for each interpolated value. *)
Record Line := { fmt : string; args : list Val }.

(** An entry of [auth_params] after the single values are unwrapped. *)
Inductive QsValue : Type :=
| Single (v : string)
| Many (vs : list string).

(** The result of running a method: a value or a raised exception. *)
Inductive Res (A : Type) : Type :=
| Ok (a : A)
| Raise (e : Exn).
Arguments Ok {A} a.
Arguments Raise {A} e.

Section Client.
Context `{Platform}.

(** ** The world: the [ENGIEHRLogin] object and its environment *)

Record World := {
  (** [self.session.cookies], a name-to-value jar *)
  cookies : gmap string json;
  (** [self.session.headers] *)
  headers : list (string * string);
  base_url : string;
  sso_url : string;
  auth_params : list (string * QsValue);
  dashboard_cookies : gmap string json;
  username : string;
  password : string;
  session_file : string;
  (** unset until [get_initial_auth_params] finds the form *)
  login_action_url : option string;
  (** the files, by path *)
  files : gmap string file_data;
  (** the paths [open(path, 'w')] accepts *)
  writable : string -> bool;
  (** the transport: it answers a request from the exchanges so far *)
  server : list Event -> Request -> Exchange;
  (** every exchange made, oldest first *)
  trace : list Event;
  (** every line printed, oldest first *)
  console : list Line
}.

Definition with_cookies (j : gmap string json) (w : World) : World :=
  {| cookies := j; headers := headers w; base_url := base_url w;
     sso_url := sso_url w; auth_params := auth_params w;
     dashboard_cookies := dashboard_cookies w; username := username w;
     password := password w; session_file := session_file w;
     login_action_url := login_action_url w; files := files w;
     writable := writable w; server := server w; trace := trace w;
     console := console w |}.

Definition with_auth_params (p : list (string * QsValue)) (w : World) : World :=
  {| cookies := cookies w; headers := headers w; base_url := base_url w;
     sso_url := sso_url w; auth_params := p;
     dashboard_cookies := dashboard_cookies w; username := username w;
     password := password w; session_file := session_file w;
     login_action_url := login_action_url w; files := files w;
     writable := writable w; server := server w; trace := trace w;
     console := console w |}.

Definition with_dashboard_cookies (j : gmap string json) (w : World) : World :=
  {| cookies := cookies w; headers := headers w; base_url := base_url w;
     sso_url := sso_url w; auth_params := auth_params w;
     dashboard_cookies := j; username := username w;
     password := password w; session_file := session_file w;
     login_action_url := login_action_url w; files := files w;
     writable := writable w; server := server w; trace := trace w;
     console := console w |}.

Definition with_login_action_url (a : option string) (w : World) : World :=
  {| cookies := cookies w; headers := headers w; base_url := base_url w;
     sso_url := sso_url w; auth_params := auth_params w;
     dashboard_cookies := dashboard_cookies w; username := username w;
     password := password w; session_file := session_file w;
     login_action_url := a; files := files w;
     writable := writable w; server := server w; trace := trace w;
     console := console w |}.

Definition with_files (f : gmap string file_data) (w : World) : World :=
  {| cookies := cookies w; headers := headers w; base_url := base_url w;
     sso_url := sso_url w; auth_params := auth_params w;
     dashboard_cookies := dashboard_cookies w; username := username w;
     password := password w; session_file := session_file w;
     login_action_url := login_action_url w; files := f;
     writable := writable w; server := server w; trace := trace w;
     console := console w |}.

Definition with_trace (t : list Event) (w : World) : World :=
  {| cookies := cookies w; headers := headers w; base_url := base_url w;
     sso_url := sso_url w; auth_params := auth_params w;
     dashboard_cookies := dashboard_cookies w; username := username w;
     password := password w; session_file := session_file w;
     login_action_url := login_action_url w; files := files w;
     writable := writable w; server := server w; trace := t;
     console := console w |}.

Definition with_console (c : list Line) (w : World) : World :=
  {| cookies := cookies w; headers := headers w; base_url := base_url w;
     sso_url := sso_url w; auth_params := auth_params w;
     dashboard_cookies := dashboard_cookies w; username := username w;
     password := password w; session_file := session_file w;
     login_action_url := login_action_url w; files := files w;
     writable := writable w; server := server w; trace := trace w;
     console := c |}.

(** ** The monad of methods: state and exceptions *)

Definition M (A : Type) : Type := World -> Res A * World.

Definition ret {A : Type} (a : A) : M A := fun w => (Ok a, w).

Definition raise {A : Type} (e : Exn) : M A := fun w => (Raise e, w).

Definition bind {A B : Type} (c : M A) (k : A -> M B) : M B :=
  fun w =>
    match c w with
    | (Ok a, w') => k a w'
    | (Raise e, w') => (Raise e, w')
    end.

(** [try: body  except Exception as e: handler]; the state reached when
    the exception was raised is kept. *)
Definition try_except {A : Type} (c : M A) (handler : Exn -> M A) : M A :=
  fun w =>
    match c w with
    | (Ok a, w') => (Ok a, w')
    | (Raise e, w') => handler e w'
    end.

Definition gets {A : Type} (f : World -> A) : M A := fun w => (Ok (f w), w).

Definition modify (f : World -> World) : M unit := fun w => (Ok tt, f w).

End Client.

Declare Scope py_scope.
Delimit Scope py_scope with py.
Notation "'let!' x ':=' c 'in' k" := (bind c (fun x => k))
  (at level 10, x name, c at level 100, k at level 200,
   format "'[v' 'let!'  x  ':='  c  'in' '/' k ']'") : py_scope.
Notation "c '>>' k" := (bind c (fun _ => k))
  (at level 100, k at level 200, right associativity,
   format "'[v' c  '>>' '/' k ']'") : py_scope.
Local Open Scope py_scope.

Section Methods.
Context `{Platform}.

(** ** Primitive operations *)

Definition print (f : string) (a : list Val) : M unit :=
  modify (fun w => with_console (console w ++ [{| fmt := f; args := a |}]) w).

(** [with open(filename, 'r') as f: json.load(f)] *)
Definition read_json (filename : string) : M json :=
  fun w =>
    match files w !! filename with
    | None => (Raise FileNotFoundError, w)
    | Some d =>
        match json_load d with
        | Some j => (Ok j, w)
        | None => (Raise JSONDecodeError, w)
        end
    end.

(** [with open(filename, 'w') as f: json.dump(obj, f, indent=2)] *)
Definition write_json (filename : string) (obj : json) : M unit :=
  fun w =>
    if writable w filename
    then (Ok tt, with_files (<[filename := json_dump obj]> (files w)) w)
    else (Raise PermissionError, w).

(** One HTTP exchange over [self.session]: the request is logged, the
    transport answers it and leaves the jar it leaves. *)
Definition send (m : Method) (u : string) (b : Body)
    (hs : list (string * string)) (redirects : bool) : M Response :=
  fun w =>
    let rq := {| method := m; target := u; body := b; extra_headers := hs;
                 allow_redirects := redirects; sent_cookies := cookies w |} in
    let ex := server w (trace w) rq in
    let ev := {| request := rq; exchange := ex |} in
    let w' := with_cookies (jar_after ex) (with_trace (trace w ++ [ev]) w) in
    match outcome ex with
    | inl e => (Raise e, w')
    | inr r => (Ok r, w')
    end.

(** [self.session.get(u)]; redirects are followed by default. *)
Definition session_get (u : string) : M Response := send GET u NoBody [] true.

(** [self.session.post(u, ...)] *)
Definition session_post (u : string) (b : Body) (hs : list (string * string))
    (redirects : bool) : M Response :=
  send POST u b hs redirects.

(** [jar.set(name, value)]: a [None] value removes the cookie, any other
    value is stored under the name. *)
Definition cookies_set (name : string) (value : json) (jar : gmap string json)
  : gmap string json :=
  match value with
  | JNull => delete name jar
  | _ => <[name := value]> jar
  end.

(** [for name, value in items: jar.set(name, value)] *)
Definition set_all (items : list (string * json)) (jar : gmap string json)
  : gmap string json :=
  fold_left (fun j nv => cookies_set (fst nv) (snd nv) j) items jar.

(** [dict(self.session.cookies)] *)
Definition dict_of_jar (jar : gmap string json) : list (string * json) :=
  map_to_list jar.

(** ** Authentication flow *)

(** The loop that unwraps one-element lists of [parse_qs]. *)
Definition unwrap_single (v : list string) : QsValue :=
  match v with
  | [x] => Single x
  | _ => Many v
  end.

Definition get_initial_auth_params : M bool :=
  try_except
    (print "🔄 Following initial redirect chain..." [] >>
     let! base := gets base_url in
     let! response := session_get base in
     if negb (status_code response =? 200) then
       print "❌ Failed to access initial URL. Status: {}" [VInt (status_code response)] >>
       ret false
     else if negb (py_in "sso.sprout.ph" (url response)) then
       print "❌ Did not redirect to SSO login page" [] >>
       ret false
     else
       print "✅ Redirected to SSO: {}" [VStr (url response)] >>
       modify (with_auth_params
                 (map (fun kv => (fst kv, unwrap_single (snd kv)))
                      (parse_qs_url (url response)))) >>
       match find_login_form (text response) with
       | None =>
           print "❌ Could not find login form" [] >>
           ret false
       | Some action_url =>
           if opt_truthy action_url then
             modify (with_login_action_url action_url) >>
             print "✅ Found login action URL: {}" [VStr (default "" action_url)] >>
             ret true
           else
             print "❌ Could not extract login action URL" [] >>
             ret false
       end)
    (fun e =>
       print "❌ Error getting auth parameters: {}" [VExn e] >>
       ret false).

(** [form_data] of [perform_login]: one entry per named input. *)
Definition collect_inputs (inputs : list (option string * option string))
  : list (string * string) :=
  fold_left
    (fun form_data inp =>
       match fst inp with
       | Some name =>
           if str_truthy name
           then dict_set name (default "" (snd inp)) form_data
           else form_data
       | None => form_data
       end)
    inputs [].

Definition perform_login (user pass : string) : M bool :=
  try_except
    (print "🔐 Attempting login for user: {}" [VStr user] >>
     let login_data :=
       [("username", user); ("password", pass); ("credentialId", "")] in
     let! sso := gets sso_url in
     (* the transport adapter has no [last_url]: the Referer is [sso_url] *)
     let hdrs :=
       [("Content-Type", "application/x-www-form-urlencoded");
        ("Referer", sso);
        ("Origin", rstrip_slash sso);
        ("Accept", "text/html,application/xhtml+xml,application/xml;q=0.9,image/webp,*/*;q=0.8");
        ("Accept-Language", "en-US,en;q=0.5");
        ("Accept-Encoding", "gzip, deflate, br");
        ("Upgrade-Insecure-Requests", "1")] in
     let! action := gets login_action_url in
     let! action_url :=
       match action with
       | Some a => ret a
       | None => raise AttributeError
       end in
     let! response := session_post action_url (FormData login_data) hdrs false in
     print "📊 Login response status: {}" [VInt (status_code response)] >>
     if status_code response =? 200 then
       let form := find_form (text response) in
       let post_back := form ≫= form_action in
       if opt_truthy post_back then
         print "🔄 Processing OIDC form_post response..." [] >>
         let form_data :=
           collect_inputs (default [] (form_inputs <$> form)) in
         let! final_response :=
           session_post (default "" post_back) (FormData form_data) [] true in
         print "📍 Final URL: {}" [VStr (url final_response)] >>
         if py_in "engie.hrhub.ph" (url final_response)
            && py_in "EmployeeDashboard.aspx" (url final_response)
         then
           print "✅ Login successful! Redirected to dashboard" [] >>
           let! jar := gets cookies in
           modify (with_dashboard_cookies jar) >>
           ret true
         else
           print "❌ Did not reach expected dashboard: {}" [VStr (url final_response)] >>
           ret false
       else
         match find_feedback (text response) with
         | Some msg => print "❌ Login failed: {}" [VStr msg] >> ret false
         | None =>
             print "❌ Login failed: No form_post found in response" [] >>
             ret false
         end
     else
       print "❌ Login request failed with status: {}" [VInt (status_code response)] >>
       ret false)
    (fun e =>
       print "❌ Error during login: {}" [VExn e] >>
       ret false).

(** The probe of the lifecycle manager. *)
Definition test_authenticated_access : M bool :=
  try_except
    (print "🧪 Testing authenticated access..." [] >>
     let! base := gets base_url in
     let! response := session_get (base +:+ "EmployeeDashboard.aspx") in
     if (status_code response =? 200)
        && py_in "Employee Dashboard" (text response)
     then
       print "✅ Successfully accessing authenticated dashboard" [] >>
       (if has_attendance (text response)
        then print "✅ Found attendance data - user is properly authenticated" []
        else ret tt) >>
       ret true
     else
       print "❌ Failed to access dashboard. Status: {}" [VInt (status_code response)] >>
       ret false)
    (fun e =>
       print "❌ Error testing authenticated access: {}" [VExn e] >>
       ret false).

(** ** Session store *)

Definition save_session (filename : string) : M bool :=
  try_except
    (let! jar := gets cookies in
     let! hdrs := gets headers in
     let session_data :=
       JObj [("cookies", JObj (dict_of_jar jar));
             ("headers", JObj (map (fun kv => (fst kv, JStr (snd kv))) hdrs))] in
     write_json filename session_data >>
     print "✅ Session saved to {}" [VStr filename] >>
     ret true)
    (fun e =>
       print "❌ Error saving session: {}" [VExn e] >>
       ret false).

Definition load_session (filename : string) : M bool :=
  try_except
    (let! session_data := read_json filename in
     (* [session_data.get('cookies', {}).items()] *)
     let! items :=
       match session_data with
       | JObj members =>
           match dict_get "cookies" members with
           | None => ret []
           | Some (JObj c) => ret c
           | Some _ => raise AttributeError
           end
       | _ => raise AttributeError
       end in
     modify (fun w => with_cookies (set_all items (cookies w)) w) >>
     print "✅ Session loaded from {}" [VStr filename] >>
     ret true)
    (fun e =>
       if is_FileNotFoundError e then
         print "📝 No existing session file found: {}" [VStr filename] >>
         ret false
       else
         print "❌ Error loading session: {}" [VExn e] >>
         ret false).

(** ** Session lifecycle manager *)

(** The part of [_ensure_authenticated] after the reuse attempt. *)
Definition fresh_authentication : M bool :=
  let! user := gets username in
  let! pass := gets password in
  let! file := gets session_file in
  print "🔐 Authenticating as {}..." [VStr user] >>
  let! got := get_initial_auth_params in
  if negb got then
    print "❌ Failed to get authentication parameters" [] >>
    ret false
  else
    let! logged := perform_login user pass in
    if negb logged then
      print "❌ Login failed" [] >>
      ret false
    else
      let! verified := test_authenticated_access in
      if negb verified then
        print "❌ Authentication verification failed" [] >>
        ret false
      else
        let! _ := save_session file in
        print "✅ Authentication successful, session saved" [] >>
        ret true.

Definition _ensure_authenticated : M bool :=
  try_except
    (let! file := gets session_file in
     let! loaded := load_session file in
     if loaded then
       let! valid := test_authenticated_access in
       if valid then
         print "✅ Using existing valid session" [] >>
         ret true
       else
         print "🔄 Existing session expired, performing fresh authentication..." [] >>
         fresh_authentication
     else
       print "🔄 No existing session found, performing fresh authentication..." [] >>
       fresh_authentication)
    (fun e =>
       print "❌ Error during authentication: {}" [VExn e] >>
       ret false).

End Methods.

Section Submitter.
Context `{Platform}.

(** ** Identity resolver *)

Definition js_patterns : list string :=
  [ "EmployeeID[" +:+ dquote +:+ "\']?\s*[:=]\s*[" +:+ dquote +:+ "\']?(\d+)";
    "employeeId[" +:+ dquote +:+ "\']?\s*[:=]\s*[" +:+ dquote +:+ "\']?(\d+)";
    "empId[" +:+ dquote +:+ "\']?\s*[:=]\s*[" +:+ dquote +:+ "\']?(\d+)";
    "UserID[" +:+ dquote +:+ "\']?\s*[:=]\s*[" +:+ dquote +:+ "\']?(\d+)" ].

(** Pattern 1: the first match of the first pattern that matches. *)
Fixpoint first_js_match (patterns : list string) (txt : string) : option string :=
  match patterns with
  | [] => None
  | pattern :: rest =>
      match re_findall_ic pattern txt with
      | m :: _ => Some m
      | [] => first_js_match rest txt
      end
  end.

(** Pattern 2: the first hidden input whose name contains "employee" and
    whose value is made of digits. *)
Fixpoint first_hidden_id (inputs : list (option string * option string))
  : option string :=
  match inputs with
  | [] => None
  | (name, value) :: rest =>
      if opt_truthy name
         && py_in "employee" (lower (default "" name))
         && isdigit (default "" value)
      then Some (default "" value)
      else first_hidden_id rest
  end.

(** [int(s)] as a computation. *)
Definition int_of (s : string) : M Z :=
  match py_int s with
  | Some n => ret n
  | None => raise ValueError
  end.

Definition _get_employee_id : M (option Z) :=
  try_except
    (let! base := gets base_url in
     let! response := session_get (base +:+ "EmployeeDashboard.aspx") in
     if negb (status_code response =? 200) then ret None
     else
       match first_js_match js_patterns (text response) with
       | Some m => let! n := int_of m in ret (Some n)
       | None =>
           match first_hidden_id (hidden_inputs (text response)) with
           | Some value => let! n := int_of value in ret (Some n)
           | None =>
               match data_employee_ids (text response) with
               | emp_id :: _ =>
                   if str_truthy emp_id && isdigit emp_id
                   then let! n := int_of emp_id in ret (Some n)
                   else
                     print "⚠️  Could not automatically detect employee ID" [] >>
                     ret None
               | [] =>
                   print "⚠️  Could not automatically detect employee ID" [] >>
                   ret None
               end
           end
       end)
    (fun e =>
       print "❌ Error getting employee ID: {}" [VExn e] >>
       ret None).

(** ** Action submitter *)

(** One record of [FormattedCertificateLogs]. *)
Definition log_entry (target_date time kind : string) : json :=
  JObj [("FormattedDate", JStr target_date);
        ("FormattedTime", JStr time);
        ("Type", JStr kind);
        ("CertificateLogID", JInt 0)].

(** [certificate_logs] as [apply_coa] builds it: the In entry is appended
    first, then the Out entry. *)
Definition certificate_logs (target_date : string)
    (time_in time_out : option string) : list json :=
  let logs0 : list json := [] in
  let logs1 :=
    if opt_truthy time_in
    then (logs0 ++ [log_entry target_date (default "" time_in) "In"])%list
    else logs0 in
  let logs2 :=
    if opt_truthy time_out
    then (logs1 ++ [log_entry target_date (default "" time_out) "Out"])%list
    else logs1 in
  logs2.

Definition coa_payload (employee_id : Z) (reason type_other : string)
    (logs : list json) : json :=
  JObj [("certificateOfAttendance",
         JObj [("CertificateOfAttendanceID", JInt 0);
               ("CertificateTypeID", JStr "0");
               ("CertificateTypeOthers", JStr type_other);
               ("Remarks", JStr reason);
               ("Status", JNull);
               ("EmployeeID", JInt employee_id);
               ("FormattedCertificateLogs", JArr logs)])].

Definition coa_headers (base : string) : list (string * string) :=
  [("Content-Type", "application/json; charset=utf-8");
   ("Accept", "application/json, text/javascript, */*; q=0.01");
   ("X-Requested-With", "XMLHttpRequest");
   ("Referer", base +:+ "CertificateOfAttendance.aspx")].

Definition validate_url (base : string) : string :=
  base +:+ "CertificateOfAttendance.aspx/ValidateSameFiling".

Definition submit_url (base : string) : string :=
  base +:+ "CertificateOfAttendance.aspx/Save".

(** [if not employee_id]: [None] and [0] are both falsy. *)
Definition id_truthy (employee_id : option Z) : bool :=
  match employee_id with
  | Some n => negb (n =? 0)
  | None => false
  end.

(** The reading of the commit response (the inner [try] of [apply_coa]). *)
Definition read_commit_response (submit_response : Response) : M bool :=
  try_except
    (let! result :=
       match response_json (text submit_response) with
       | Some j => ret j
       | None => raise JSONDecodeError
       end in
     (* [result.get('d')]: only a dict has [get] *)
     let! d :=
       match result with
       | JObj members => ret (dict_get "d" members)
       | _ => raise AttributeError
       end in
     if truthy (default JNull d) then
       print "🎉 COA application submitted successfully!" [] >>
       print "📋 Response: {}" [VJson result] >>
       ret true
     else
       print "⚠️  Unexpected response format" [] >>
       print "Response: {}" [VJson result] >>
       ret false)
    (fun e =>
       print "⚠️  Could not parse response: {}" [VExn e] >>
       print "✅ COA submitted (response parsing failed but HTTP 200 received)" [] >>
       ret true).

(** The two-phase submission, from the payload on. *)
Definition validate_then_commit (payload : json) : M bool :=
  let! base := gets base_url in
  let hdrs := coa_headers base in
  print "🔍 Step 1: Validating COA submission..." [] >>
  let! validate_response :=
    session_post (validate_url base) (JsonBody payload) hdrs true in
  if negb (status_code validate_response =? 200) then
    print "❌ Validation failed. Status: {}" [VInt (status_code validate_response)] >>
    print "Response: {}" [VStr (text validate_response)] >>
    ret false
  else
    print "✅ Validation passed" [] >>
    print "💾 Step 2: Submitting COA application..." [] >>
    let! submit_response :=
      session_post (submit_url base) (JsonBody payload) hdrs true in
    if negb (status_code submit_response =? 200) then
      print "❌ COA submission failed. Status: {}" [VInt (status_code submit_response)] >>
      print "Response: {}" [VStr (text submit_response)] >>
      ret false
    else
      read_commit_response submit_response.

Definition apply_coa (target_date : string) (time_in time_out : option string)
    (reason type_other : string) : M bool :=
  try_except
    (if negb (opt_truthy time_in) && negb (opt_truthy time_out) then
       print "❌ Either time_in or time_out (or both) must be provided" [] >>
       ret false
     else
       let! authenticated := _ensure_authenticated in
       if negb authenticated then
         print "❌ Failed to authenticate. Cannot apply COA." [] >>
         ret false
       else
         print "🎯 Applying COA for {}" [VStr target_date] >>
         (if opt_truthy time_in
          then print "   📥 IN: {}" [VStr (default "" time_in)]
          else ret tt) >>
         (if opt_truthy time_out
          then print "   📤 OUT: {}" [VStr (default "" time_out)]
          else ret tt) >>
         match strptime_ymd target_date with
         | None =>
             print "❌ Invalid date format. Use YYYY-MM-DD format (e.g., '2025-07-19')" [] >>
             ret false
         | Some date_obj =>
             let logs := certificate_logs target_date time_in time_out in
             let! employee_id := _get_employee_id in
             if negb (id_truthy employee_id) then
               print "❌ Could not determine employee ID from session" [] >>
               ret false
             else
               let payload :=
                 coa_payload (default 0 employee_id) reason type_other logs in
               print "📋 COA payload prepared for Employee ID: {}" [VInt (default 0 employee_id)] >>
               validate_then_commit payload
         end)
    (fun e =>
       print "❌ Error applying for COA: {}" [VExn e] >>
       ret false).

End Submitter.

(** ** Construction *)

Section Construction.
Context `{Platform}.

(** [ENGIEHRLogin(username, password)] in a given environment.
    [default_headers] are the headers [requests.Session()] starts with.
    The constructor's fall-back credentials are not reproduced: the
    caller passes the credentials. *)
Definition init (user pass : string) (default_headers : list (string * string))
    (fs : gmap string file_data) (wr : string -> bool)
    (srv : list Event -> Request -> Exchange) : World :=
  {| cookies := ∅;
     headers :=
       dict_set "User-Agent"
         "Mozilla/5.0 (Macintosh; Intel Mac OS X 10_15_7) AppleWebKit/537.36 (KHTML, like Gecko) Chrome/120.0.0.0 Safari/537.36"
         default_headers;
     base_url := "https://engie.hrhub.ph/";
     sso_url := "https://sso.sprout.ph/";
     auth_params := [];
     dashboard_cookies := ∅;
     username := user;
     password := pass;
     session_file := "engie_session.json";
     login_action_url := None;
     files := fs;
     writable := wr;
     server := srv;
     trace := [];
     console := [] |}.

End Construction.

(** ** The clock methods *)

Section Clock.
Context `{Platform}.

Definition clock_in : M bool :=
  try_except
    (let! authenticated := _ensure_authenticated in
     if negb authenticated then
       print "❌ Failed to authenticate. Cannot clock in." [] >>
       ret false
     else
       print "🕐 Clock-in functionality not yet implemented" [] >>
       print "💡 Use apply_coa() for time entry corrections" [] >>
       ret false)
    (fun e =>
       print "❌ Error during clock-in: {}" [VExn e] >>
       ret false).

Definition clock_out : M bool :=
  try_except
    (let! authenticated := _ensure_authenticated in
     if negb authenticated then
       print "❌ Failed to authenticate. Cannot clock out." [] >>
       ret false
     else
       print "🕐 Clock-out functionality not yet implemented" [] >>
       print "💡 Use apply_coa() for time entry corrections" [] >>
       ret false)
    (fun e =>
       print "❌ Error during clock-out: {}" [VExn e] >>
       ret false).

End Clock.

(** ** [_parse_dates]: [strptime] with the four formats it tries *)

(** A format is a list of directives and literal characters.  A field
    directive takes the first alternative of its pattern that matches, as
    [match_m] and [match_d] do; in the four formats below a field is
    followed by a separator or by the end of the text, so that a later
    alternative never succeeds where the first one that matches locally
    fails. *)
Inductive directive : Type :=
| dir_Y
| dir_m
| dir_d
| lit (c : ascii).

(** The fields read so far: year, month, day ([strptime] starts from
    1900, 1, 1). *)
Fixpoint match_format (fmt : list directive) (acc : Z * Z * Z) (s : string)
  : option (Z * Z * Z * string) :=
  match fmt with
  | [] => Some (acc, s)
  | dir_Y :: rest =>
      match match_Y s with
      | Some (y, s') => match_format rest (y, acc.1.2, acc.2) s'
      | None => None
      end
  | dir_m :: rest =>
      match match_m s with
      | Some (m, s') => match_format rest (acc.1.1, m, acc.2) s'
      | None => None
      end
  | dir_d :: rest =>
      match match_d s with
      | Some (d, s') => match_format rest (acc.1.1, acc.1.2, d) s'
      | None => None
      end
  | lit c :: rest =>
      match s with
      | String c' s' => if Ascii.eqb c c' then match_format rest acc s' else None
      | EmptyString => None
      end
  end.

(** [datetime.strptime(s, fmt)]; [None] is [ValueError]. *)
Definition strptime (fmt : list directive) (s : string) : option date :=
  match match_format fmt (1900, 1, 1) s with
  | Some ((y, m, d), EmptyString) => make_date y m d
  | _ => None
  end.

(** ['%Y-%m-%d'] *)
Definition fmt_ymd_dash : list directive :=
  [dir_Y; lit "-"; dir_m; lit "-"; dir_d].

(** ['%m/%d/%Y'] *)
Definition fmt_mdy : list directive := [dir_m; lit "/"; dir_d; lit "/"; dir_Y].

(** ['%d/%m/%Y'] *)
Definition fmt_dmy : list directive := [dir_d; lit "/"; dir_m; lit "/"; dir_Y].

(** ['%Y/%m/%d'] *)
Definition fmt_ymd_slash : list directive :=
  [dir_Y; lit "/"; dir_m; lit "/"; dir_d].

Definition formats_to_try : list (list directive) :=
  [fmt_ymd_dash; fmt_mdy; fmt_dmy; fmt_ymd_slash].

(** The loop over the formats: the first one that parses the text. *)
Fixpoint first_format (formats : list (list directive)) (s : string)
  : option date :=
  match formats with
  | [] => None
  | fmt :: rest =>
      match strptime fmt s with
      | Some d => Some d
      | None => first_format rest s
      end
  end.


(** What [strftime('%Y-%m-%d')] prints for a date whose year has four
    digits: the fields padded with zeros. *)
Definition digit_char (n : Z) : ascii := ascii_of_nat (Z.to_nat (48 + n)).

Definition two_digits (n : Z) (rest : string) : string :=
  String (digit_char (n / 10)) (String (digit_char (n mod 10)) rest).

Definition four_digits (n : Z) (rest : string) : string :=
  String (digit_char (n / 1000))
    (String (digit_char (n / 100 mod 10)) (two_digits (n mod 100) rest)).

Definition strftime_ymd (d : date) : string :=
  four_digits (year d)
    (String "-" (two_digits (month d) (String "-" (two_digits (day d) "")))).

(** ** [get_user_info] *)

(** The table reading of BeautifulSoup that [get_user_info] relies on. *)
Class Tables := {
  (** for each [tr] of [soup.find_all('tr')], the [get_text(strip=True)]
      of each [td] of [row.find_all('td')] *)
  table_rows : string -> list (list string)
}.

(** [balance.replace('.', '')] *)
Fixpoint remove_dots (s : string) : string :=
  match s with
  | EmptyString => EmptyString
  | String c r => if Ascii.eqb c "." then remove_dots r else String c (remove_dots r)
  end.

(** [status in ['IN', 'OUT']] *)
Definition is_in_out (status : string) : bool :=
  String.eqb status "IN" || String.eqb status "OUT".

(** An entry of [recent_attendance]: the dict with keys [date], [status]
    and [time]. *)
Record Attendance := {
  att_date : string;
  att_status : string;
  att_time : string
}.

(** The dict [get_user_info] returns when it reads the page. *)
Record UserInfo := {
  recent_attendance : list Attendance;
  leave_credits : list (string * string)
}.

(** The first loop over the rows: one entry per row that has at least
    three cells, a date, a status IN or OUT and a time. *)
Fixpoint attendance_entries (rows : list (list string)) : list Attendance :=
  match rows with
  | [] => []
  | cells :: rest =>
      match cells with
      | d :: status :: time :: _ =>
          if str_truthy d && is_in_out status && str_truthy time
          then {| att_date := d; att_status := status; att_time := time |}
               :: attendance_entries rest
          else attendance_entries rest
      | _ => attendance_entries rest
      end
  end.

(** The body of the second loop: [leave_credits[leave_type] = balance]
    for a row with at least two cells, a name and a balance made of
    digits and dots. *)
Definition add_leave (leave_credits : list (string * string))
    (cells : list string) : list (string * string) :=
  match cells with
  | leave_type :: balance :: _ =>
      if str_truthy leave_type && isdigit (remove_dots balance)
      then dict_set leave_type balance leave_credits
      else leave_credits
  | _ => leave_credits
  end.

Definition leave_entries (rows : list (list string)) : list (string * string) :=
  fold_left add_leave rows [].

Section UserInfoMethod.
Context `{Platform} `{Tables}.

(** [None] is the empty dict, returned when the page cannot be read. *)
Definition get_user_info : M (option UserInfo) :=
  try_except
    (let! base := gets base_url in
     let! response := session_get (base +:+ "EmployeeDashboard.aspx") in
     if negb (status_code response =? 200) then ret None
     else
       let rows := table_rows (text response) in
       let attendance := attendance_entries rows in
       let leave := leave_entries rows in
       ret (Some {| recent_attendance := firstn 5 attendance;
                    leave_credits := leave |}))
    (fun e =>
       print "❌ Error extracting user info: {}" [VExn e] >>
       ret None).

End UserInfoMethod.

(** ** The command-line caller: [apply_coa.py] *)

(** The parsed arguments: [--date] is required, [--in] and [--out] are
    [None] when absent, [--reason] and [--type] have defaults. *)
Record Args := {
  arg_date : string;
  arg_time_in : option string;
  arg_time_out : option string;
  arg_reason : string;
  arg_type : string
}.

Section CommandLine.
Context `{Platform}.

(** [ENGIEHRLogin()] inside a running program: a new object in the world
    as it is, with the log of exchanges and the console kept.  The
    fall-back credentials of the constructor and the headers a new
    [requests.Session] starts with are parameters. *)
Definition new_login (user pass : string)
    (default_headers : list (string * string)) (w : World) : World :=
  with_console (console w)
    (with_trace (trace w)
       (init user pass default_headers (files w) (writable w) (server w))).

(** [main()] of [apply_coa.py]: the exit status. *)
Definition cli_main (user pass : string)
    (default_headers : list (string * string)) (args : Args) : M Z :=
  if negb (opt_truthy (arg_time_in args)) && negb (opt_truthy (arg_time_out args))
  then
    print "❌ You must specify either --in, --out, or both" [] >>
    ret 1
  else
    match strptime_ymd (arg_date args) with
    | None =>
        print "❌ Invalid date format. Use YYYY-MM-DD (e.g., 2025-07-20)" [] >>
        ret 1
    | Some _ =>
        modify (new_login user pass default_headers) >>
        let! loaded := load_session "test_session.json" in
        if negb loaded then
          print "❌ No valid session found. Please run test_login.py first to establish a session." [] >>
          ret 1
        else
          let! valid := test_authenticated_access in
          if negb valid then
            print "❌ Session expired. Please run test_login.py to re-authenticate." [] >>
            ret 1
          else
            print "🎯 Applying COA..." [] >>
            print "📅 Date: {}" [VStr (arg_date args)] >>
            (if opt_truthy (arg_time_in args)
             then print "📥 IN: {}" [VStr (default "" (arg_time_in args))]
             else ret tt) >>
            (if opt_truthy (arg_time_out args)
             then print "📤 OUT: {}" [VStr (default "" (arg_time_out args))]
             else ret tt) >>
            let! result :=
              apply_coa (arg_date args) (arg_time_in args) (arg_time_out args)
                (arg_reason args) (arg_type args) in
            if result then
              print "🎉 COA application submitted successfully!" [] >>
              ret 0
            else
              print "❌ COA application failed" [] >>
              ret 1
    end.

End CommandLine.

(** ** The tool server: [mcp_server.py] *)

(** [', '.join(items)] *)
Fixpoint join_comma (items : list string) : string :=
  match items with
  | [] => ""
  | [x] => x
  | x :: rest => x +:+ ", " +:+ join_comma rest
  end.

(** How an optional text is interpolated: [None] prints as [None]. *)
Definition opt_val (o : option string) : Val :=
  match o with
  | Some s => VStr s
  | None => VJson JNull
  end.

Section ToolServer.
Context `{Platform}.

(** [DEFAULT_USERNAME] and [DEFAULT_PASSWORD] of the module, which are
    also the fall-back credentials of [ENGIEHRLogin()], and the headers a
    new [requests.Session] starts with. *)
Variables (DEFAULT_USERNAME DEFAULT_PASSWORD : string).
Variable default_headers : list (string * string).

(** The module's [session_file]. *)
Definition mcp_session_file : string := "engie_mcp_session.json".

(** [logger.info] and [logger.error]: with [logging.basicConfig] a record
    is written to the console as [LEVEL:engie-hr-mcp:message]. *)
Definition log_info (f : string) (a : list Val) : M unit :=
  print ("INFO:engie-hr-mcp:" +:+ f) a.

Definition log_error (f : string) (a : list Val) : M unit :=
  print ("ERROR:engie-hr-mcp:" +:+ f) a.

(** The part of the server's [_ensure_authenticated] after the reuse
    attempt. *)
Definition server_fresh_login : M bool :=
  log_info "Performing fresh authentication" [] >>
  let! got := get_initial_auth_params in
  if negb got then
    log_error "Failed to get authentication parameters" [] >>
    ret false
  else
    let! logged := perform_login DEFAULT_USERNAME DEFAULT_PASSWORD in
    if negb logged then
      log_error "Login failed" [] >>
      ret false
    else
      let! verified := test_authenticated_access in
      if negb verified then
        log_error "Authentication verification failed" [] >>
        ret false
      else
        let! _ := save_session mcp_session_file in
        log_info "Authentication successful, session saved" [] >>
        ret true.

(** [ENGIEHRMCPServer._ensure_authenticated]; [has_login] tells whether
    [self.hr_login] is already set. *)
Definition server_ensure_authenticated (has_login : bool) : M bool :=
  (if has_login then ret tt
   else modify (new_login DEFAULT_USERNAME DEFAULT_PASSWORD default_headers)) >>
  let! loaded := load_session mcp_session_file in
  if loaded then
    let! valid := test_authenticated_access in
    if valid then
      log_info "Using existing valid session" [] >>
      ret true
    else
      log_info "Existing session expired, performing fresh login" [] >>
      server_fresh_login
  else
    server_fresh_login.

(** The handlers return one text item, kept as its template and the
    values interpolated in it. *)
Definition _handle_apply_coa (arguments : list (string * string))
  : M (list Line) :=
  try_except
    (let target_date := dict_get "date" arguments in
     let time_in := dict_get "time_in" arguments in
     let time_out := dict_get "time_out" arguments in
     let reason := default "forgot to in/out" (dict_get "reason" arguments) in
     let type_description :=
       default "forgot to in/out" (dict_get "type_description" arguments) in
     if negb (opt_truthy target_date) then
       ret [{| fmt := "❌ Date parameter is required in YYYY-MM-DD format";
               args := [] |}]
     else if negb (opt_truthy time_in) && negb (opt_truthy time_out) then
       ret [{| fmt := "❌ Either time_in or time_out (or both) must be provided";
               args := [] |}]
     else
       log_info "Applying COA for {} - IN: {}, OUT: {}"
         [opt_val target_date; opt_val time_in; opt_val time_out] >>
       let! result :=
         apply_coa (default "" target_date) time_in time_out reason
           type_description in
       if result then
         let time_info0 : list string := [] in
         let time_info1 :=
           if opt_truthy time_in
           then time_info0 ++ ["IN: " +:+ default "" time_in]
           else time_info0 in
         let time_info2 :=
           if opt_truthy time_out
           then time_info1 ++ ["OUT: " +:+ default "" time_out]
           else time_info1 in
         ret [{| fmt := "✅ COA application submitted successfully!\n📅 Date: {}\n⏰ Times: {}\n📝 Reason: {}";
                 args := [opt_val target_date; VStr (join_comma time_info2);
                          VStr reason] |}]
       else
         ret [{| fmt := "❌ COA application failed for {}. Please check the logs for details.";
                 args := [opt_val target_date] |}])
    (fun e =>
       log_error "Error in apply_coa: {}" [VExn e] >>
       ret [{| fmt := "❌ Error applying COA: {}"; args := [VExn e] |}]).

(** [now_date] and [now_time] are [now.strftime('%Y-%m-%d')] and
    [now.strftime('%H:%M')] for the [datetime.now()] of the call. *)
Definition _handle_clock_in (now_date now_time : string)
    (arguments : list (string * string)) : M (list Line) :=
  try_except
    (let target_date := default now_date (dict_get "date" arguments) in
     let target_time := default now_time (dict_get "time" arguments) in
     log_info "Clock in for {} at {}" [VStr target_date; VStr target_time] >>
     let! result :=
       apply_coa target_date (Some target_time) None "Clock in via MCP"
         "Clock in" in
     if result then
       ret [{| fmt := "✅ Clock-in successful!\n📅 Date: {}\n⏰ Time: {}\n📝 Applied via COA system";
               args := [VStr target_date; VStr target_time] |}]
     else
       ret [{| fmt := "❌ Clock-in failed for {} at {}. Please check the logs for details.";
               args := [VStr target_date; VStr target_time] |}])
    (fun e =>
       log_error "Error in clock_in: {}" [VExn e] >>
       ret [{| fmt := "❌ Error during clock-in: {}"; args := [VExn e] |}]).

Definition _handle_clock_out (now_date now_time : string)
    (arguments : list (string * string)) : M (list Line) :=
  try_except
    (let target_date := default now_date (dict_get "date" arguments) in
     let target_time := default now_time (dict_get "time" arguments) in
     log_info "Clock out for {} at {}" [VStr target_date; VStr target_time] >>
     let! result :=
       apply_coa target_date None (Some target_time) "Clock out via MCP"
         "Clock out" in
     if result then
       ret [{| fmt := "✅ Clock-out successful!\n📅 Date: {}\n⏰ Time: {}\n📝 Applied via COA system";
               args := [VStr target_date; VStr target_time] |}]
     else
       ret [{| fmt := "❌ Clock-out failed for {} at {}. Please check the logs for details.";
               args := [VStr target_date; VStr target_time] |}])
    (fun e =>
       log_error "Error in clock_out: {}" [VExn e] >>
       ret [{| fmt := "❌ Error during clock-out: {}"; args := [VExn e] |}]).

(** [handle_call_tool(name, arguments)]; [arguments] is [None] or a dict
    of texts, as the tool schemas declare. *)
Definition handle_call_tool (has_login : bool) (now_date now_time : string)
    (name : string) (arguments : option (list (string * string)))
  : M (list Line) :=
  try_except
    (let! authenticated := server_ensure_authenticated has_login in
     if negb authenticated then
       ret [{| fmt := "❌ Failed to authenticate with ENGIE HR Hub. Please check credentials and network connection.";
               args := [] |}]
     else if String.eqb name "apply_coa" then
       _handle_apply_coa (default [] arguments)
     else if String.eqb name "clock_in" then
       _handle_clock_in now_date now_time (default [] arguments)
     else if String.eqb name "clock_out" then
       _handle_clock_out now_date now_time (default [] arguments)
     else
       ret [{| fmt := "❌ Unknown tool: {}"; args := [VStr name] |}])
    (fun e =>
       log_error "Error handling tool call {}: {}" [VStr name; VExn e] >>
       ret [{| fmt := "❌ Error executing {}: {}"; args := [VStr name; VExn e] |}]).

End ToolServer.

(** ** The interactive caller: [main()] of [login.py] *)

(** How [main] ends: it returns, or [sys.exit(code)] ends the program. *)
Inductive Exit : Type :=
| Returned
| SysExit (code : Z).

(** The characters [str.strip()] removes. *)
Definition is_space (c : ascii) : bool :=
  let n := nat_of_ascii c in
  ((Nat.leb 9 n && Nat.leb n 13) || (Nat.leb 28 n && Nat.leb n 32))%bool.

Fixpoint lstrip (s : string) : string :=
  match s with
  | String c r => if is_space c then lstrip r else s
  | EmptyString => EmptyString
  end.

(** [s.strip()] *)
Definition strip (s : string) : string :=
  rev_string "" (lstrip (rev_string "" (lstrip s))).

(** ["=" * 40] and ["-" * 20] *)
Fixpoint repeat_char (c : ascii) (n : nat) : string :=
  match n with
  | O => EmptyString
  | S k => String c (repeat_char c k)
  end.

Section Interactive.
Context `{Platform} `{Tables}.

(** The loops of [main] that print the user information. *)
Fixpoint print_attendance (entries : list Attendance) : M unit :=
  match entries with
  | [] => ret tt
  | entry :: rest =>
      print "  {} - {} at {}"
        [VStr (att_date entry); VStr (att_status entry); VStr (att_time entry)] >>
      print_attendance rest
  end.

Fixpoint print_leave (items : list (string * string)) : M unit :=
  match items with
  | [] => ret tt
  | (leave_type, balance) :: rest =>
      print "  {}: {}" [VStr leave_type; VStr balance] >>
      print_leave rest
  end.

(** [main()], given the two lines typed at the prompts.  The prompts of
    [input] are written to the console like printed lines; the
    constructor's fall-back credentials and the headers of a new
    [requests.Session] are parameters. *)
Definition main (user pass : string) (default_headers : list (string * string))
    (typed_username typed_password : string) : M Exit :=
  print "🚀 ENGIE HR Hub Headless Login" [] >>
  print (repeat_char "=" 40) [] >>
  print "👤 Username: " [] >>
  let username := strip typed_username in
  if negb (str_truthy username) then
    print "❌ Username is required" [] >>
    ret (SysExit 1)
  else
    print "🔑 Password: " [] >>
    let password := strip typed_password in
    if negb (str_truthy password) then
      print "❌ Password is required" [] >>
      ret (SysExit 1)
    else
      modify (new_login user pass default_headers) >>
      let! loaded := load_session "engie_session.json" in
      (if loaded then
         let! valid := test_authenticated_access in
         if valid then print "✅ Using existing valid session" []
         else print "🔄 Existing session invalid, performing fresh login..." []
       else ret tt) >>
      let! got := get_initial_auth_params in
      if negb got then
        print "❌ Failed to get authentication parameters" [] >>
        ret (SysExit 1)
      else
        let! logged := perform_login username password in
        if negb logged then
          print "❌ Login failed" [] >>
          ret (SysExit 1)
        else
          let! verified := test_authenticated_access in
          if verified then
            let! _ := save_session "engie_session.json" in
            print "\n📊 User Information:" [] >>
            print (repeat_char "-" 20) [] >>
            let! user_info := get_user_info in
            (match user_info with
             | Some info =>
                 (match recent_attendance info with
                  | [] => ret tt
                  | _ :: _ =>
                      print "📅 Recent Attendance:" [] >>
                      print_attendance (recent_attendance info)
                  end) >>
                 (match leave_credits info with
                  | [] => ret tt
                  | _ :: _ =>
                      print "🏖️  Leave Credits:" [] >>
                      print_leave (leave_credits info)
                  end)
             | None => ret tt
             end) >>
            print "\n✅ Login completed successfully!" [] >>
            print "💡 Session saved for future use" [] >>
            ret Returned
          else
            print "❌ Authentication verification failed" [] >>
            ret (SysExit 1).

End Interactive.

(** ** Vocabulary of the properties *)

Section Vocabulary.
Context `{Platform}.

Definition line (f : string) (a : list Val) : Line := {| fmt := f; args := a |}.

(** The world after one more line on the console. *)
Definition said (l : Line) (w : World) : World :=
  with_console (console w ++ [l]) w.


Definition not_found_line (filename : string) : Line :=
  line "📝 No existing session file found: {}" [VStr filename].

Definition load_error_line (e : Exn) : Line :=
  line "❌ Error loading session: {}" [VExn e].

Definition loaded_line (filename : string) : Line :=
  line "✅ Session loaded from {}" [VStr filename].

Definition saved_line (filename : string) : Line :=
  line "✅ Session saved to {}" [VStr filename].

(** The document [save_session] writes for a jar and the session headers. *)
Definition session_document (jar : gmap string json)
    (hdrs : list (string * string)) : json :=
  JObj [("cookies", JObj (dict_of_jar jar));
        ("headers", JObj (map (fun kv => (fst kv, JStr (snd kv))) hdrs))].

(** *** Requests and the network log *)

Definition get_request (u : string) (w : World) : Request :=
  {| method := GET; target := u; body := NoBody; extra_headers := [];
     allow_redirects := true; sent_cookies := cookies w |}.


Definition dashboard_url (w : World) : string :=
  base_url w +:+ "EmployeeDashboard.aspx".

(** The request of the probe [test_authenticated_access]. *)
Definition probe_request (w : World) : Request :=
  get_request (dashboard_url w) w.

(** The log entry of a request sent in world [w]. *)
Definition exchanged (rq : Request) (w : World) : Event :=
  {| request := rq; exchange := server w (trace w) rq |}.

(** The world once the request is answered. *)
Definition after_send (rq : Request) (w : World) : World :=
  with_cookies (jar_after (server w (trace w) rq))
    (with_trace (trace w ++ [exchanged rq w]) w).

(** The exchange got this response (it did not raise). *)
Definition answered (ev : Event) (resp : Response) : Prop :=
  outcome (exchange ev) = inr resp.

(** The exchange carries no JSON payload: it is not a submission. *)
Definition no_payload (ev : Event) : Prop :=
  forall j, body (request ev) <> JsonBody j.

(** The exchange is a POST of a JSON payload to this address. *)
Definition posts_json (u : string) (ev : Event) : Prop :=
  method (request ev) = POST /\ target (request ev) = u /\
  exists j, body (request ev) = JsonBody j.

(** The exchange is the POST of this payload to this address. *)
Definition posts (u : string) (payload : json) (ev : Event) : Prop :=
  method (request ev) = POST /\ target (request ev) = u /\
  body (request ev) = JsonBody payload.

(** The exchange did not come back with status 200. *)
Definition refused (ev : Event) : Prop :=
  forall resp, answered ev resp -> status_code resp <> 200.

(** The exchange came back with status 200. *)
Definition passed (ev : Event) : Prop :=
  exists resp, answered ev resp /\ status_code resp = 200.

(** [w'] is reached from [w] by exchanges that carry no JSON payload, with
    the same portal address. *)
Definition steps (w w' : World) : Prop :=
  base_url w' = base_url w /\
  exists new, trace w' = trace w ++ new /\ Forall no_payload new.

(** A computation that only makes such steps. *)
Definition keeps {A : Type} (c : M A) : Prop := forall w, steps w (c w).2.

(** A computation that raises nothing. *)
Definition returns {A : Type} (c : M A) : Prop :=
  forall w, exists a, (c w).1 = Ok a.

(** What the two-phase submission of a payload leaves in the log, and the
    value it returns. *)
Inductive submission (base : string) (payload : json)
  : list Event -> bool -> Prop :=
| validate_refused v :
    posts (validate_url base) payload v -> refused v ->
    submission base payload [v] false
| commit_refused v c :
    posts (validate_url base) payload v -> passed v ->
    posts (submit_url base) payload c -> refused c ->
    submission base payload [v; c] false
| commit_read v c resp b wx :
    posts (validate_url base) payload v -> passed v ->
    posts (submit_url base) payload c ->
    answered c resp -> status_code resp = 200 ->
    (read_commit_response resp wx).1 = Ok b ->
    submission base payload [v; c] b.

(** What a call of [apply_coa] leaves in the log, and its result: it
    stops before the submission, or it runs the submission of the payload
    built from its arguments. *)
Inductive coa_outcome (w : World) (target_date : string)
    (time_in time_out : option string) (reason type_other : string)
  : Res bool -> World -> Prop :=
| coa_stopped w' pre :
    trace w' = trace w ++ pre -> Forall no_payload pre ->
    coa_outcome w target_date time_in time_out reason type_other (Ok false) w'
| coa_submitted w' pre tail employee_id b :
    trace w' = trace w ++ pre ++ tail -> Forall no_payload pre ->
    employee_id <> 0 ->
    submission (base_url w)
      (coa_payload employee_id reason type_other
         (certificate_logs target_date time_in time_out)) tail b ->
    coa_outcome w target_date time_in time_out reason type_other (Ok b) w'.

(** The attributes the authentication flow writes, and the files, are
    as they were. *)
Definition untouched_by_probe (w w' : World) : Prop :=
  login_action_url w' = login_action_url w /\
  auth_params w' = auth_params w /\
  dashboard_cookies w' = dashboard_cookies w /\
  files w' = files w.

(** *** Console lines of the host check *)



End Vocabulary.

(** ** A concrete platform and concrete portals, to run the model *)

Definition demo_accept_body : string :=
  "{" +:+ dquote +:+ "d" +:+ dquote +:+ ": {" +:+ dquote +:+ "IsSuccess"
  +:+ dquote +:+ ": true}}".

Definition demo_response_json (s : string) : option json :=
  if String.eqb s demo_accept_body
  then Some (JObj [("d", JObj [("IsSuccess", JBool true)])])
  else if String.eqb s "{}" then Some (JObj [])
  else if String.eqb s "[]" then Some (JArr [])
  else None.

(** Session files hold a document ([Some]) or text that is not JSON
    ([None]); pages are recognised by a marker they contain. *)
Definition demo_platform : Platform :=
  {| file_data := option json;
     json_dump := Some;
     json_load := fun d => d;
     json_load_dump := fun j => eq_refl;
     response_json := demo_response_json;
     parse_qs_url := fun _ => [("client_id", ["hrhub"])];
     find_login_form := fun t =>
       if py_in "kc-form-login" t
       then Some (Some "https://sso.sprout.ph/login-actions/authenticate")
       else None;
     find_form := fun t =>
       if py_in "form_post" t
       then Some {| form_action := Some "https://engie.hrhub.ph/signin-oidc";
                    form_inputs := [(Some "code", Some "c0de")] |}
       else None;
     find_feedback := fun _ => None;
     has_attendance := fun _ => false;
     re_findall_ic := fun _ t =>
       if py_in "EmployeeID: 6033" t then ["6033"] else [];
     hidden_inputs := fun _ => [];
     data_employee_ids := fun _ => [] |}.

Definition demo_reply (status : Z) (u body : string) (jar : gmap string json)
  : Exchange :=
  {| outcome := inr {| status_code := status; url := u; text := body |};
     jar_after := jar |}.

(** A portal that works: the dashboard is served to a request carrying a
    [session] cookie, the login chain hands that cookie out, and the two
    submission endpoints answer with the given statuses. *)
Definition demo_portal (validate_status commit_status : Z) (commit_body : string)
    (history : list Event) (rq : Request) : Exchange :=
  let jar := sent_cookies rq in
  let u := target rq in
  if String.eqb u "https://engie.hrhub.ph/EmployeeDashboard.aspx" then
    match jar !! "session" with
    | Some _ => demo_reply 200 u "Employee Dashboard EmployeeID: 6033" jar
    | None => demo_reply 302 u "" jar
    end
  else if String.eqb u "https://engie.hrhub.ph/" then
    demo_reply 200 "https://sso.sprout.ph/realms/engie/auth?client_id=hrhub"
      "kc-form-login" jar
  else if String.eqb u "https://sso.sprout.ph/login-actions/authenticate" then
    demo_reply 200 u "form_post" jar
  else if String.eqb u "https://engie.hrhub.ph/signin-oidc" then
    demo_reply 200 "https://engie.hrhub.ph/EmployeeDashboard.aspx"
      "Employee Dashboard" (<["session" := JStr "s3ss10n"]> jar)
  else if String.eqb u "https://engie.hrhub.ph/CertificateOfAttendance.aspx/ValidateSameFiling" then
    demo_reply validate_status u "" jar
  else if String.eqb u "https://engie.hrhub.ph/CertificateOfAttendance.aspx/Save" then
    demo_reply commit_status u commit_body jar
  else demo_reply 404 u "" jar.


(** No network. *)
Definition demo_offline (history : list Event) (rq : Request) : Exchange :=
  {| outcome := inl (RequestException "Network error");
     jar_after := sent_cookies rq |}.

Definition demo_session_document : json :=
  JObj [("cookies", JObj [("session", JStr "s3ss10n")]);
        ("headers", JObj [("User-Agent", JStr "test")])].

Definition demo_world (fs : gmap string (option json))
    (srv : list Event -> Request -> Exchange) : @World demo_platform :=
  @init demo_platform "user" "secret" [] fs (fun _ => true) srv.

(** The files of a client that saved its session, and of one whose
    session file is damaged. *)
Definition demo_saved_files : gmap string (option json) :=
  {[ "engie_session.json" := Some demo_session_document ]}.

Definition demo_damaged_files : gmap string (option json) :=
  {[ "engie_session.json" := None ]}.

(** The [n]-th exchange of the log of a world. *)
Definition demo_event (n : nat) (w : @World demo_platform) : Event :=
  nth n (trace w) (exchanged (probe_request w) w).

(** Runs of [apply_coa] against the working portal. *)
Definition demo_submit (fs : gmap string (option json))
    (validate_status commit_status : Z) (target_date : string)
  : Res bool * @World demo_platform :=
  @apply_coa demo_platform target_date (Some "09:32") (Some "17:30")
    "forgot to in/out" "forgot to in/out"
    (demo_world fs (demo_portal validate_status commit_status demo_accept_body)).

(** Method and address of each exchange of a log. *)
Definition demo_calls (w : @World demo_platform) : list (Method * string) :=
  map (fun ev => (method (request ev), target (request ev))) (trace w).

(** The request of the concrete runs of the command line. *)
Definition demo_args (d : string) (tin : option string) : Args :=
  {| arg_date := d; arg_time_in := tin; arg_time_out := None;
     arg_reason := "forgot to in/out"; arg_type := "forgot to in/out" |}.

(** ** Vocabulary of the further properties *)

(** A date of the calendar, as [datetime.date] accepts it. *)
Definition calendar_date (d : date) : Prop :=
  1 <= year d <= 9999 /\ 1 <= month d <= 12 /\
  1 <= day d <= days_in_month (year d) (month d).



Section FurtherVocabulary.
Context `{Platform}.

(** What the end of a successful authentication looks like, seen from a
    world [w0] that the run started from. *)
Definition ends_with_probe (w0 w1 : World) : Prop :=
  exists pre ev resp,
    trace w1 = trace w0 ++ pre ++ [ev] /\
    method (request ev) = GET /\
    target (request ev) = dashboard_url w0 /\
    answered ev resp /\ status_code resp = 200 /\
    py_in "Employee Dashboard" (text resp) = true.

(** [w'] is reached from [w] by exchanges none of which carries a JSON
    payload. *)
Definition quiet (w w' : World) : Prop :=
  exists new, trace w' = trace w ++ new /\ Forall no_payload new.

(** A handler answers with one item and only adds to the log. *)
Definition answers_once (c : M (list Line)) (w : World) : Prop :=
  exists item w' new, c w = (Ok [item], w') /\ trace w' = trace w ++ new.

End FurtherVocabulary.

(** A table reading for the concrete runs: the dashboard page shows three
    rows. *)
Definition demo_tables : Tables :=
  {| table_rows := fun t =>
       if py_in "Employee Dashboard" t
       then [["2025-07-18"; "IN"; "09:00"]; ["Vacation Leave"; "12.5"];
             ["2025-07-18"; "LATE"; "09:00"]]
       else [] |}.

(** * Properties *)

Section Properties.
Context `{Platform}.

(** ** Running the primitives *)


(** ** Cookie jars: setting a list of cookies *)


Lemma set_all_app l1 l2 jar :
  set_all (l1 ++ l2) jar = set_all l2 (set_all l1 jar).
Proof. unfold set_all. apply fold_left_app. Qed.





(** ** The session store, case by case *)

Lemma load_session_missing filename w :
  files w !! filename = None ->
  load_session filename w = (Ok false, said (not_found_line filename) w).
Proof.
  intros Hf. unfold load_session, try_except, bind, read_json.
  rewrite Hf. reflexivity.
Qed.

Lemma load_session_undecodable filename w d :
  files w !! filename = Some d ->
  json_load d = None ->
  load_session filename w = (Ok false, said (load_error_line JSONDecodeError) w).
Proof.
  intros Hf Hd. unfold load_session, try_except, bind, read_json.
  rewrite Hf, Hd. reflexivity.
Qed.


Lemma save_session_writable filename w :
  writable w filename = true ->
  save_session filename w =
    (Ok true,
     said (saved_line filename)
       (with_files
          (<[filename := json_dump (session_document (cookies w) (headers w))]>
             (files w)) w)).
Proof.
  intros Hw. unfold save_session, try_except, bind, gets, write_json.
  rewrite Hw. reflexivity.
Qed.

Lemma save_session_unwritable filename w :
  writable w filename = false ->
  save_session filename w =
    (Ok false, said (line "❌ Error saving session: {}" [VExn PermissionError]) w).
Proof.
  intros Hw. unfold save_session, try_except, bind, gets, write_json.
  rewrite Hw. reflexivity.
Qed.



(** [load_session] returns: every exception is caught, and only the jar
    and the console change. *)
Lemma load_session_returns filename w :
  exists b jar lines,
    load_session filename w =
      (Ok b, with_console (console w ++ lines) (with_cookies jar w)).
Proof.
  unfold load_session, try_except, bind, read_json.
  destruct (files w !! filename) as [d|]; simpl.
  2: { exists false, (cookies w), [not_found_line filename]. by destruct w. }
  destruct (json_load d) as [j|]; simpl.
  2: { exists false, (cookies w), [load_error_line JSONDecodeError]. by destruct w. }
  assert (Hbad : exists b jar lines,
    (Ok false, said (load_error_line AttributeError) w) =
    (Ok b, with_console (console w ++ lines) (with_cookies jar w))).
  { exists false, (cookies w), [load_error_line AttributeError]. by destruct w. }
  destruct j as [| | | | | |members]; try exact Hbad.
  destruct (dict_get "cookies" members) as [c|]; simpl.
  2: { exists true, (cookies w), [loaded_line filename]. by destruct w. }
  destruct c as [| | | | | |c]; try exact Hbad.
  exists true, (set_all c (cookies w)), [loaded_line filename]. reflexivity.
Qed.

(** ** Steps: how the methods move the world *)

Lemma steps_refl w : steps w w.
Proof. split; [done|]. exists []. by rewrite app_nil_r. Qed.

Lemma steps_trans w1 w2 w3 : steps w1 w2 -> steps w2 w3 -> steps w1 w3.
Proof.
  intros [Hb1 (n1 & Ht1 & Hn1)] [Hb2 (n2 & Ht2 & Hn2)]. split.
  - congruence.
  - exists (n1 ++ n2). split.
    + by rewrite Ht2, Ht1, app_assoc.
    + by apply Forall_app.
Qed.

Lemma keeps_ret {A} (a : A) : keeps (ret a).
Proof. intros w. apply steps_refl. Qed.

Lemma keeps_raise {A} e : keeps (@raise _ A e).
Proof. intros w. apply steps_refl. Qed.

Lemma keeps_gets {A} (f : World -> A) : keeps (gets f).
Proof. intros w. apply steps_refl. Qed.

Lemma keeps_modify (f : World -> World) :
  (forall w, base_url (f w) = base_url w) ->
  (forall w, trace (f w) = trace w) ->
  keeps (modify f).
Proof.
  intros Hb Ht w. split; simpl; [apply Hb|].
  exists []. split; [by rewrite Ht, app_nil_r | constructor].
Qed.

Lemma keeps_print f a : keeps (print f a).
Proof. by apply keeps_modify. Qed.

Lemma keeps_bind {A B} (c : M A) (k : A -> M B) :
  keeps c -> (forall a, keeps (k a)) -> keeps (bind c k).
Proof.
  intros Hc Hk w. unfold bind. specialize (Hc w).
  destruct (c w) as [[a|e] w1]; simpl in *; [|done].
  eapply steps_trans; [exact Hc | apply Hk].
Qed.

Lemma keeps_try {A} (c : M A) (h : Exn -> M A) :
  keeps c -> (forall e, keeps (h e)) -> keeps (try_except c h).
Proof.
  intros Hc Hh w. unfold try_except. specialize (Hc w).
  destruct (c w) as [[a|e] w1]; simpl in *; [done|].
  eapply steps_trans; [exact Hc | apply Hh].
Qed.

Lemma keeps_send m u b hs r :
  (forall j, b <> JsonBody j) -> keeps (send m u b hs r).
Proof.
  intros Hb w. unfold send.
  match goal with |- context [outcome ?x] => destruct (outcome x) end;
    (split; simpl; [done|]; eexists [_]; split; [done|];
     constructor; [exact Hb | constructor]).
Qed.

Lemma keeps_read_json filename : keeps (read_json filename).
Proof.
  intros w. unfold read_json.
  destruct (files w !! filename) as [d|]; [destruct (json_load d)|];
    apply steps_refl.
Qed.

Lemma keeps_write_json filename j : keeps (write_json filename j).
Proof.
  intros w. unfold write_json. destruct (writable w filename); simpl.
  - split; simpl; [done|]. exists []. by rewrite app_nil_r.
  - apply steps_refl.
Qed.

Lemma returns_ret {A} (a : A) : returns (ret a).
Proof. intros w. by exists a. Qed.

Lemma returns_print f a : returns (print f a).
Proof. intros w. by exists tt. Qed.

Lemma returns_gets {A} (f : World -> A) : returns (gets f).
Proof. intros w. by eexists. Qed.

Lemma returns_bind {A B} (c : M A) (k : A -> M B) :
  returns c -> (forall a, returns (k a)) -> returns (bind c k).
Proof.
  intros Hc Hk w. unfold bind. destruct (Hc w) as [a Ha].
  destruct (c w) as [[a'|e] w1]; simpl in *; [|done]. apply Hk.
Qed.

Lemma returns_try {A} (c : M A) (h : Exn -> M A) :
  (forall e, returns (h e)) -> returns (try_except c h).
Proof.
  intros Hh w. unfold try_except.
  destruct (c w) as [[a|e] w1]; simpl; [by exists a | apply Hh].
Qed.

(** One step of a proof that a method [keeps] or [returns]. *)
Ltac keeps_step :=
  first
    [ apply keeps_ret | apply keeps_raise | apply keeps_gets
    | apply keeps_print | apply keeps_read_json | apply keeps_write_json
    | apply keeps_send; discriminate
    | apply keeps_modify; reflexivity
    | apply keeps_bind; [|intros ?]
    | apply keeps_try; [|intros ?]
    | match goal with
      | |- keeps (if ?b then _ else _) => destruct b
      | |- keeps (match ?x with _ => _ end) => destruct x
      | |- keeps (let _ := _ in _) => cbv zeta
      end ].

Ltac returns_step :=
  first
    [ apply returns_ret | apply returns_print | apply returns_gets
    | apply returns_bind; [|intros ?]
    | apply returns_try; intros ?
    | match goal with
      | |- returns (if ?b then _ else _) => destruct b
      | |- returns (match ?x with _ => _ end) => destruct x
      end ].

Lemma get_initial_auth_params_keeps : keeps get_initial_auth_params.
Proof. unfold get_initial_auth_params, session_get. repeat keeps_step. Qed.

Lemma perform_login_keeps user pass : keeps (perform_login user pass).
Proof. unfold perform_login, session_post. repeat keeps_step. Qed.

Lemma test_authenticated_access_keeps : keeps test_authenticated_access.
Proof. unfold test_authenticated_access, session_get. repeat keeps_step. Qed.

Lemma save_session_keeps filename : keeps (save_session filename).
Proof. unfold save_session. repeat keeps_step. Qed.

Lemma load_session_keeps filename : keeps (load_session filename).
Proof. unfold load_session. repeat keeps_step. Qed.

Lemma fresh_authentication_keeps : keeps fresh_authentication.
Proof.
  unfold fresh_authentication.
  repeat first
    [ apply get_initial_auth_params_keeps | apply perform_login_keeps
    | apply test_authenticated_access_keeps | apply save_session_keeps
    | keeps_step ].
Qed.

Lemma _ensure_authenticated_keeps : keeps _ensure_authenticated.
Proof.
  unfold _ensure_authenticated.
  repeat first
    [ apply load_session_keeps | apply test_authenticated_access_keeps
    | apply fresh_authentication_keeps | keeps_step ].
Qed.

Lemma _get_employee_id_keeps : keeps _get_employee_id.
Proof. unfold _get_employee_id, session_get, int_of. repeat keeps_step. Qed.

Lemma get_initial_auth_params_returns : returns get_initial_auth_params.
Proof. unfold get_initial_auth_params. repeat returns_step. Qed.

Lemma perform_login_returns user pass : returns (perform_login user pass).
Proof. unfold perform_login. repeat returns_step. Qed.

Lemma test_authenticated_access_returns : returns test_authenticated_access.
Proof. unfold test_authenticated_access. repeat returns_step. Qed.

Lemma save_session_returns filename : returns (save_session filename).
Proof. unfold save_session. repeat returns_step. Qed.

Lemma _ensure_authenticated_returns : returns _ensure_authenticated.
Proof. unfold _ensure_authenticated. repeat returns_step. Qed.

Lemma _get_employee_id_returns : returns _get_employee_id.
Proof. unfold _get_employee_id. repeat returns_step. Qed.

Lemma apply_coa_returns d tin tout r t : returns (apply_coa d tin tout r t).
Proof. unfold apply_coa. repeat returns_step. Qed.

(** ** Running a method step by step *)

Lemma bind_ret {A B} (a : A) (k : A -> M B) w : bind (ret a) k w = k a w.
Proof. reflexivity. Qed.

Lemma bind_gets {A B} (f : World -> A) (k : A -> M B) w :
  bind (gets f) k w = k (f w) w.
Proof. reflexivity. Qed.

Lemma bind_print {B} f a (k : unit -> M B) w :
  bind (print f a) k w = k tt (said (line f a) w).
Proof. reflexivity. Qed.

Lemma bind_ok {A B} (c : M A) (k : A -> M B) w a w1 :
  c w = (Ok a, w1) -> bind c k w = k a w1.
Proof. intros Hc. unfold bind. by rewrite Hc. Qed.

Lemma bind_send {B} m u b hs r (k : Response -> M B) w :
  let rq := {| method := m; target := u; body := b; extra_headers := hs;
               allow_redirects := r; sent_cookies := cookies w |} in
  bind (send m u b hs r) k w =
    match outcome (server w (trace w) rq) with
    | inl e => (Raise e, after_send rq w)
    | inr resp => k resp (after_send rq w)
    end.
Proof.
  intros rq. unfold bind, send. fold rq.
  by destruct (outcome (server w (trace w) rq)).
Qed.

Lemma trace_said l w : trace (said l w) = trace w.
Proof. reflexivity. Qed.

Lemma base_url_said l w : base_url (said l w) = base_url w.
Proof. reflexivity. Qed.

Lemma cookies_said l w : cookies (said l w) = cookies w.
Proof. reflexivity. Qed.

Lemma files_said l w : files (said l w) = files w.
Proof. reflexivity. Qed.

Lemma trace_after_send rq w :
  trace (after_send rq w) = trace w ++ [exchanged rq w].
Proof. reflexivity. Qed.

Lemma base_url_after_send rq w : base_url (after_send rq w) = base_url w.
Proof. reflexivity. Qed.

(** ** The two-phase submission *)

Lemma read_commit_response_keeps resp : keeps (read_commit_response resp).
Proof. unfold read_commit_response. repeat keeps_step. Qed.

Lemma read_commit_response_returns resp : returns (read_commit_response resp).
Proof. unfold read_commit_response. repeat returns_step. Qed.

(** The trace is untouched by the reading of the commit response. *)
Lemma read_commit_response_trace resp w :
  trace (read_commit_response resp w).2 = trace w.
Proof.
  unfold read_commit_response, try_except, bind.
  destruct (response_json (text resp)) as [j|]; simpl; [|done].
  destruct j as [| | | | | |members]; simpl; try done.
  by destruct (truthy (default JNull (dict_get "d" members))).
Qed.

Lemma refused_raised ev e : outcome (exchange ev) = inl e -> refused ev.
Proof. intros He resp Hresp. unfold answered in Hresp. congruence. Qed.

Lemma refused_status ev resp :
  outcome (exchange ev) = inr resp -> (status_code resp =? 200) = false ->
  refused ev.
Proof.
  intros He Hst resp' Hresp. unfold answered in Hresp.
  assert (resp' = resp) as -> by congruence. lia.
Qed.

Lemma passed_status ev resp :
  outcome (exchange ev) = inr resp -> (status_code resp =? 200) = true ->
  passed ev.
Proof. intros He Hst. exists resp. split; [exact He | lia]. Qed.

(** The submission sends the validate POST, then, only if that came back
    with status 200, the commit POST. *)
Lemma validate_then_commit_run payload w :
  exists tail b,
    trace (validate_then_commit payload w).2 = trace w ++ tail /\
    submission (base_url w) payload tail b /\
    match (validate_then_commit payload w).1 with
    | Ok b' => b' = b
    | Raise _ => b = false
    end.
Proof.
  unfold validate_then_commit, session_post.
  rewrite bind_gets. cbv zeta. rewrite bind_print, bind_send.
  set (w1 := said _ w).
  set (rq1 := {| method := POST; target := validate_url (base_url w) |}).
  set (v := exchanged rq1 w1).
  assert (Hv : posts (validate_url (base_url w)) payload v) by done.
  destruct (outcome (server w1 (trace w1) rq1)) as [e|vresp] eqn:Hout.
  { exists [v], false. repeat split; try done.
    apply validate_refused; [done|]. by eapply refused_raised. }
  destruct (status_code vresp =? 200) eqn:Hst; cbn [negb].
  2: { rewrite !bind_print. exists [v], false. repeat split; try done.
       apply validate_refused; [done|]. by eapply refused_status. }
  assert (Hpassed : passed v) by (by eapply passed_status).
  rewrite !bind_print, bind_send.
  set (w2 := said _ (said _ (after_send rq1 w1))).
  set (rq2 := {| method := POST; target := submit_url (base_url w) |}).
  set (c := exchanged rq2 w2).
  assert (Hc : posts (submit_url (base_url w)) payload c) by done.
  assert (Htr : trace (after_send rq2 w2) = trace w ++ [v; c]).
  { rewrite trace_after_send. unfold w2. rewrite !trace_said, trace_after_send.
    by rewrite <- app_assoc. }
  destruct (outcome (server w2 (trace w2) rq2)) as [e|cresp] eqn:Hout2.
  { exists [v; c], false. repeat split; try done.
    apply commit_refused; try done. by eapply refused_raised. }
  destruct (status_code cresp =? 200) eqn:Hst2; cbn [negb].
  2: { rewrite !bind_print. exists [v; c], false. repeat split; try done.
       apply commit_refused; try done. by eapply refused_status. }
  destruct (read_commit_response_returns cresp (after_send rq2 w2)) as [b Hb].
  pose proof (read_commit_response_trace cresp (after_send rq2 w2)) as Htr2.
  exists [v; c], b. rewrite Htr2, Hb. repeat split; try done.
  apply (commit_read _ _ v c cresp b (after_send rq2 w2));
    [done | done | done | exact Hout2 | lia | exact Hb].
Qed.

(** ** The shape of every run of [apply_coa] *)

Lemma run_bind {A B} (c : M A) (k : A -> M B) w :
  returns c -> keeps c ->
  exists a w1, steps w w1 /\ bind c k w = k a w1.
Proof.
  intros Hr Hk. destruct (Hr w) as [a Ha]. specialize (Hk w).
  destruct (c w) as [res w1] eqn:E. simpl in *. subst res.
  exists a, w1. split; [done|]. by apply bind_ok.
Qed.

Lemma steps_said w w1 l : steps w w1 -> steps w (said l w1).
Proof. intros Hs. exact Hs. Qed.

Lemma coa_stopped_steps w d tin tout r t w1 :
  steps w w1 -> coa_outcome w d tin tout r t (Ok false) w1.
Proof. intros [_ (pre & Ht & Hp)]. by eapply coa_stopped. Qed.

Lemma id_truthy_nonzero oid :
  id_truthy oid = true -> default 0 oid <> 0.
Proof. destruct oid as [n|]; simpl; [lia | done]. Qed.

Ltac run_call Hr Hk a w' Hs :=
  match goal with
  | |- context [bind ?c ?k ?w] =>
      let Hrun := fresh "Hrun" in
      destruct (run_bind c k w) as (a & w' & Hs & Hrun);
      [ first [exact Hr | repeat returns_step]
      | first [exact Hk | repeat keeps_step]
      | rewrite Hrun; clear Hrun; cbv beta ]
  end.

Lemma coa_outcome_said w d tin tout r t res w1 l :
  coa_outcome w d tin tout r t res w1 ->
  coa_outcome w d tin tout r t res (said l w1).
Proof.
  intros Hc. destruct Hc.
  - by eapply coa_stopped.
  - by eapply coa_submitted.
Qed.

Ltac stop_here :=
  unfold ret; cbn [fst snd]; apply coa_stopped_steps, steps_said.

Lemma apply_coa_outcome d tin tout r t w :
  coa_outcome w d tin tout r t
    (apply_coa d tin tout r t w).1 (apply_coa d tin tout r t w).2.
Proof.
  unfold apply_coa.
  match goal with |- context [try_except ?c ?h] => set (body := c) end.
  assert (Hbody :
    match (body w).1 with
    | Ok b => coa_outcome w d tin tout r t (Ok b) (body w).2
    | Raise _ => coa_outcome w d tin tout r t (Ok false) (body w).2
    end).
  { subst body. cbv beta.
    destruct (negb (opt_truthy tin) && negb (opt_truthy tout)).
    { rewrite bind_print. stop_here. apply steps_refl. }
    run_call _ensure_authenticated_returns _ensure_authenticated_keeps b1 w1 Hs1.
    destruct b1; cbn [negb].
    2: { rewrite bind_print. stop_here. done. }
    rewrite bind_print.
    run_call I I u1 w2 Hs2.
    run_call I I u2 w3 Hs3.
    assert (Hs : steps w w3).
    { eapply steps_trans; [exact Hs1|].
      eapply steps_trans; [apply steps_said, steps_refl|].
      eapply steps_trans; [exact Hs2 | exact Hs3]. }
    clear Hs1 Hs2 Hs3.
    destruct (strptime_ymd d) as [date_obj|].
    2: { rewrite bind_print. stop_here. done. }
    cbv zeta.
    run_call _get_employee_id_returns _get_employee_id_keeps oid w4 Hs4.
    assert (Hs' : steps w w4) by (by eapply steps_trans).
    destruct (id_truthy oid) eqn:Hid; cbn [negb].
    2: { rewrite bind_print. stop_here. done. }
    rewrite bind_print.
    set (payload := coa_payload _ _ _ _).
    set (w5 := said _ w4).
    destruct (validate_then_commit_run payload w5)
      as (tail & b & Htr & Hsub & Hres).
    destruct Hs' as [Hbase (pre & Hpre & Hno)].
    assert (Hout : coa_outcome w d tin tout r t (Ok b)
                     (validate_then_commit payload w5).2).
    { apply (coa_submitted _ _ _ _ _ _ _ pre tail (default 0 oid) b).
      - rewrite Htr. unfold w5. by rewrite trace_said, Hpre, app_assoc.
      - exact Hno.
      - by apply id_truthy_nonzero.
      - unfold w5 in Hsub. rewrite base_url_said, Hbase in Hsub. exact Hsub. }
    destruct (validate_then_commit payload w5) as [[b'|e] w6];
      simpl in *; by subst. }
  unfold try_except.
  destruct (body w) as [[b|e] w']; cbn [fst snd] in Hbody |- *; [done|].
  rewrite bind_print. unfold ret. cbn [fst snd].
  by apply coa_outcome_said.
Qed.

(** ** The probe and the host check, step by step *)

Lemma test_authenticated_access_run w :
  exists b w',
    test_authenticated_access w = (Ok b, w') /\
    trace w' = trace w ++ [exchanged (probe_request w) w] /\
    untouched_by_probe w w'.
Proof.
  unfold test_authenticated_access, try_except, session_get.
  rewrite bind_print, bind_gets, bind_send.
  set (w1 := said _ w).
  set (rq := {| method := GET |}).
  change (outcome (server w1 (trace w1) rq))
    with (outcome (server w (trace w) (probe_request w))).
  destruct (outcome (server w (trace w) (probe_request w))) as [e|resp].
  { rewrite bind_print. by eexists false, _. }
  destruct ((status_code resp =? 200) && py_in "Employee Dashboard" (text resp)).
  - rewrite bind_print. destruct (has_attendance (text resp)).
    + rewrite bind_print. by eexists true, _.
    + rewrite bind_ret. by eexists true, _.
  - rewrite bind_print. by eexists false, _.
Qed.

Lemma append_same_prefix (s a b : string) : s +:+ a = s +:+ b -> a = b.
Proof. induction s as [|c s IH]; simpl; [done|]. intros [= Heq]. auto. Qed.

Lemma validate_url_not_submit_url base : validate_url base <> submit_url base.
Proof. intros Heq%append_same_prefix. discriminate. Qed.

Lemma posts_json_has_payload u ev : posts_json u ev -> ~ no_payload ev.
Proof. intros (_ & _ & j & Hj) Hno. by apply (Hno j). Qed.

Lemma posts_posts_json u payload ev : posts u payload ev -> posts_json u ev.
Proof. intros (Hm & Ht & Hb). repeat split; [done..|]. by exists payload. Qed.

Lemma not_in_steps u ev pre :
  Forall no_payload pre -> posts_json u ev -> ev ∉ pre.
Proof.
  intros Hpre Hev Hin. rewrite Forall_forall in Hpre.
  by eapply posts_json_has_payload; [exact Hev | apply Hpre].
Qed.

Lemma passed_not_refused ev : passed ev -> refused ev -> False.
Proof. intros (resp & Ha & Hst) Hr. by apply (Hr resp). Qed.

(** ** Session store *)



(** C6, as the code has it. [load_session] never raises.  It returns
    [False] when the file does not exist and [False] again when the file
    exists and does not decode: the returned value is the same, only the
    line printed on the console differs, and the jar is untouched in both
    cases. *)
Theorem load_session_failure_modes (filename : string) (w : World) :
  (exists b w', load_session filename w = (Ok b, w')) /\
  (files w !! filename = None ->
     load_session filename w = (Ok false, said (not_found_line filename) w)) /\
  (forall d, files w !! filename = Some d -> json_load d = None ->
     load_session filename w =
       (Ok false, said (load_error_line JSONDecodeError) w)) /\
  not_found_line filename <> load_error_line JSONDecodeError.
Proof.
  split; [|split; [|split]].
  - destruct (load_session_returns filename w) as (b & jar & lines & Hrun).
    eauto.
  - apply load_session_missing.
  - intros d. apply load_session_undecodable.
  - discriminate.
Qed.

(** ** Preconditions of the submission *)

(** C8. With neither time given, [apply_coa] returns [False] for every
    date, reason and category text, and the world is as before except for
    one line on the console: no exchange is added to the network log, and
    the jar and the files are untouched. *)
Theorem apply_coa_without_times (target_date reason type_other : string) (w : World) :
  exists w',
    apply_coa target_date None None reason type_other w = (Ok false, w') /\
    trace w' = trace w /\ cookies w' = cookies w /\ files w' = files w.
Proof. by eexists. Qed.

(** The same holds when a time is given as the empty string. *)
Lemma apply_coa_falsy_times target_date time_in time_out reason type_other w :
  opt_truthy time_in = false -> opt_truthy time_out = false ->
  exists w',
    apply_coa target_date time_in time_out reason type_other w = (Ok false, w') /\
    trace w' = trace w.
Proof.
  intros Hin Hout. unfold apply_coa, try_except. rewrite Hin, Hout.
  by eexists.
Qed.


(** ** Session lifecycle manager *)

(** C2. The reuse fast path: when the persisted session loads and the
    probe on it succeeds, [_ensure_authenticated] returns [True] and the
    only exchange it makes is the probe, a GET of the dashboard page with
    the loaded cookies: no request to the entry address, no POST of the
    credentials; the attributes the authentication flow writes are
    untouched and no file is written. *)
Theorem ensure_authenticated_reuses_session (w w1 w2 : World) :
  load_session (session_file w) w = (Ok true, w1) ->
  test_authenticated_access w1 = (Ok true, w2) ->
  exists w' ev,
    _ensure_authenticated w = (Ok true, w') /\
    trace w' = trace w ++ [ev] /\
    method (request ev) = GET /\
    target (request ev) = dashboard_url w /\
    sent_cookies (request ev) = cookies w1 /\
    untouched_by_probe w w'.
Proof.
  intros Hload Hprobe.
  destruct (load_session_returns (session_file w) w)
    as (b & jar & lines & Hload').
  rewrite Hload in Hload'. injection Hload' as _ ->.
  destruct (test_authenticated_access_run
              (with_console (console w ++ lines) (with_cookies jar w)))
    as (b' & w2' & Hprobe' & Htrace & Hsame).
  rewrite Hprobe in Hprobe'. injection Hprobe' as _ <-.
  eexists _, _. split.
  { unfold _ensure_authenticated, try_except.
    rewrite bind_gets, (bind_ok _ _ _ _ _ Hload), (bind_ok _ _ _ _ _ Hprobe).
    rewrite bind_print. reflexivity. }
  split; [exact Htrace|]. do 3 (split; [reflexivity|]). exact Hsame.
Qed.

(** ** The validate-then-commit protocol *)

(** C3. In every run of [apply_coa]: if the POST of the payload to the
    validate address came back with a status other than 200, [apply_coa]
    returns [False] and no exchange of that run is a POST of a payload to
    the commit address. *)
Theorem refused_validate_skips_commit (target_date : string)
    (time_in time_out : option string) (reason type_other : string)
    (w : World) (new : list Event) (v : Event) (resp : Response) :
  trace (apply_coa target_date time_in time_out reason type_other w).2
    = trace w ++ new ->
  v ∈ new ->
  posts_json (validate_url (base_url w)) v ->
  answered v resp ->
  status_code resp <> 200 ->
  (apply_coa target_date time_in time_out reason type_other w).1 = Ok false /\
  forall c, c ∈ new -> ~ posts_json (submit_url (base_url w)) c.
Proof.
  intros Htrace Hv Hval Hresp Hstatus.
  pose proof (apply_coa_outcome target_date time_in time_out reason type_other w)
    as Hout.
  destruct Hout as [w' pre Htr Hpre | w' pre tail employee_id b Htr Hpre Hid Hsub].
  { rewrite Htr in Htrace. apply app_inv_head in Htrace. subst pre.
    by destruct (not_in_steps _ v new Hpre Hval). }
  rewrite Htr in Htrace. apply app_inv_head in Htrace. subst new.
  apply elem_of_app in Hv as [Hv|Hv].
  { by destruct (not_in_steps _ v pre Hpre Hval). }
  assert (Hclash : forall ev payload,
             posts (submit_url (base_url w)) payload ev ->
             posts_json (validate_url (base_url w)) ev -> False).
  { intros ev payload (_ & Ht1 & _) (_ & Ht2 & _).
    apply (validate_url_not_submit_url (base_url w)). congruence. }
  assert (Hstatus' : passed v -> False).
  { intros (resp' & Ha & Hst). unfold answered in *. congruence. }
  destruct Hsub as [v0 Hv0 Href | v0 c0 Hv0 Hpass Hc0 Href
                   | v0 c0 cresp b wx Hv0 Hpass Hc0 Hans Hst Hread].
  - apply list_elem_of_singleton in Hv as ->. split; [done|].
    intros c [Hc|Hc]%elem_of_app Hcommit.
    + by destruct (not_in_steps _ c pre Hpre Hcommit).
    + apply list_elem_of_singleton in Hc as ->.
      destruct Hv0 as (_ & Ht1 & _), Hcommit as (_ & Ht2 & _).
      apply (validate_url_not_submit_url (base_url w)). congruence.
  - apply elem_of_cons in Hv as [->|Hv]; [by destruct Hstatus'|].
    apply list_elem_of_singleton in Hv as ->. by destruct (Hclash c0 _ Hc0).
  - apply elem_of_cons in Hv as [->|Hv]; [by destruct Hstatus'|].
    apply list_elem_of_singleton in Hv as ->. by destruct (Hclash c0 _ Hc0).
Qed.

(** C5. In every run of [apply_coa] in which the POST of the payload to
    the commit address came back with status 200: a body that decodes to
    an object whose ['d'] is present and truthy gives [True]; a body that
    does not decode gives [True]; a body that decodes to an object whose
    ['d'] is absent, or present and falsy, gives [False]. *)
Theorem commit_response_verdict (target_date : string)
    (time_in time_out : option string) (reason type_other : string)
    (w : World) (new : list Event) (c : Event) (resp : Response) :
  trace (apply_coa target_date time_in time_out reason type_other w).2
    = trace w ++ new ->
  c ∈ new ->
  posts_json (submit_url (base_url w)) c ->
  answered c resp ->
  status_code resp = 200 ->
  let result := (apply_coa target_date time_in time_out reason type_other w).1 in
  (forall members value,
     response_json (text resp) = Some (JObj members) ->
     dict_get "d" members = Some value -> truthy value = true ->
     result = Ok true) /\
  (response_json (text resp) = None -> result = Ok true) /\
  (forall members,
     response_json (text resp) = Some (JObj members) ->
     dict_get "d" members = None \/
       (exists value, dict_get "d" members = Some value /\ truthy value = false) ->
     result = Ok false).
Proof.
  intros Htrace Hc Hcommit Hresp Hstatus result. subst result.
  pose proof (apply_coa_outcome target_date time_in time_out reason type_other w)
    as Hout.
  destruct Hout as [w' pre Htr Hpre | w' pre tail employee_id b Htr Hpre Hid Hsub].
  { rewrite Htr in Htrace. apply app_inv_head in Htrace. subst pre.
    by destruct (not_in_steps _ c new Hpre Hcommit). }
  rewrite Htr in Htrace. apply app_inv_head in Htrace. subst new.
  apply elem_of_app in Hc as [Hc|Hc].
  { by destruct (not_in_steps _ c pre Hpre Hcommit). }
  assert (Hclash : forall ev payload,
             posts (validate_url (base_url w)) payload ev ->
             posts_json (submit_url (base_url w)) ev -> False).
  { intros ev payload (_ & Ht1 & _) (_ & Ht2 & _).
    apply (validate_url_not_submit_url (base_url w)). congruence. }
  assert (Hpassed : passed c) by (by exists resp).
  destruct Hsub as [v0 Hv0 Href | v0 c0 Hv0 Hpass Hc0 Href
                   | v0 c0 cresp b wx Hv0 Hpass Hc0 Hans Hst Hread].
  - apply list_elem_of_singleton in Hc as ->. by destruct (Hclash v0 _ Hv0).
  - apply elem_of_cons in Hc as [->|Hc]; [by destruct (Hclash v0 _ Hv0)|].
    apply list_elem_of_singleton in Hc as ->.
    by destruct (passed_not_refused c0).
  - apply elem_of_cons in Hc as [->|Hc]; [by destruct (Hclash v0 _ Hv0)|].
    apply list_elem_of_singleton in Hc as ->.
    assert (cresp = resp) as -> by (unfold answered in *; congruence).
    unfold read_commit_response, try_except, bind in Hread.
    split; [|split].
    + intros members value Hjson Hd Htruthy.
      rewrite Hjson in Hread. cbn in Hread. rewrite Hd in Hread.
      cbn in Hread. rewrite Htruthy in Hread. cbn in Hread. congruence.
    + intros Hjson. rewrite Hjson in Hread. cbn in Hread. congruence.
    + intros members Hjson Hd.
      rewrite Hjson in Hread. cbn in Hread.
      destruct Hd as [Hd|(value & Hd & Hfalsy)]; rewrite Hd in Hread;
        cbn in Hread; rewrite ?Hfalsy in Hread; cbn in Hread; congruence.
Qed.

(** A body that decodes to something other than an object has no [get]:
    the reading fails, and such a response counts as accepted. *)
Lemma read_commit_response_not_object resp j w :
  response_json (text resp) = Some j ->
  (forall members, j <> JObj members) ->
  (read_commit_response resp w).1 = Ok true.
Proof.
  intros Hjson Hj. unfold read_commit_response, try_except, bind.
  rewrite Hjson. destruct j; try done. by destruct (Hj members).
Qed.


(** ** The host check of the authentication flow *)


(** The payload of every validate or commit POST of a run is the one
    built from the arguments: it holds [certificate_logs] of the date and
    the times. *)
Lemma apply_coa_posts_built_payload d tin tout r t w new ev j :
  trace (apply_coa d tin tout r t w).2 = trace w ++ new ->
  ev ∈ new ->
  body (request ev) = JsonBody j ->
  exists employee_id,
    employee_id <> 0 /\
    j = coa_payload employee_id r t (certificate_logs d tin tout).
Proof.
  intros Htrace Hev Hbody.
  assert (Hpayload : ~ no_payload ev) by (intros Hno; by apply (Hno j)).
  assert (Hpre : forall pre, Forall no_payload pre -> ev ∉ pre).
  { intros pre Hall Hin. rewrite Forall_forall in Hall. auto. }
  destruct (apply_coa_outcome d tin tout r t w)
    as [w' pre Htr Hno | w' pre tail employee_id b Htr Hno Hid Hsub].
  { rewrite Htr in Htrace. apply app_inv_head in Htrace. subst pre.
    by destruct (Hpre new). }
  rewrite Htr in Htrace. apply app_inv_head in Htrace. subst new.
  apply elem_of_app in Hev as [Hev|Hev]; [by destruct (Hpre pre)|].
  exists employee_id. split; [done|].
  assert (Hposts : exists a, posts a
            (coa_payload employee_id r t (certificate_logs d tin tout)) ev).
  { destruct Hsub;
      repeat (apply elem_of_cons in Hev as [->|Hev]; [by eexists|]);
      by apply elem_of_nil in Hev. }
  destruct Hposts as (a & _ & _ & Hb). congruence.
Qed.

(** A commit POST that did not come back with status 200 gives [False]. *)
Lemma refused_commit_rejected d tin tout r t w new c :
  trace (apply_coa d tin tout r t w).2 = trace w ++ new ->
  c ∈ new ->
  posts_json (submit_url (base_url w)) c ->
  refused c ->
  (apply_coa d tin tout r t w).1 = Ok false.
Proof.
  intros Htrace Hc Hcommit Href.
  destruct (apply_coa_outcome d tin tout r t w)
    as [w' pre Htr Hno | w' pre tail employee_id b Htr Hno Hid Hsub];
    [done|].
  rewrite Htr in Htrace. apply app_inv_head in Htrace. subst new.
  apply elem_of_app in Hc as [Hc|Hc].
  { by destruct (not_in_steps _ c pre Hno Hcommit). }
  destruct Hsub as [v0 Hv0 Href0 | v0 c0 Hv0 Hpass Hc0 Href0
                   | v0 c0 cresp b wx Hv0 Hpass Hc0 Hans Hst Hread];
    [done | done |].
  assert (c = c0) as ->.
  { apply elem_of_cons in Hc as [->|Hc].
    - destruct Hv0 as (_ & Ht1 & _), Hcommit as (_ & Ht2 & _).
      destruct (validate_url_not_submit_url (base_url w)). congruence.
    - by apply list_elem_of_singleton in Hc. }
  by destruct (Href cresp).
Qed.

End Properties.

(** * The properties on concrete runs *)



Lemma ensure_authenticated_reuses_session_witness :
  exists w' ev,
    @_ensure_authenticated demo_platform
      (demo_world demo_saved_files (demo_portal 200 200 demo_accept_body))
      = (Ok true, w') /\
    trace w' = [ev] /\
    method (request ev) = GET /\
    target (request ev) = "https://engie.hrhub.ph/EmployeeDashboard.aspx".
Proof.
  pose (w := demo_world demo_saved_files (demo_portal 200 200 demo_accept_body)).
  pose (w1 := (@load_session demo_platform (session_file w) w).2).
  pose (w2 := (@test_authenticated_access demo_platform w1).2).
  destruct (@ensure_authenticated_reuses_session demo_platform w w1 w2)
    as (w' & ev & Hrun & Htrace & Hget & Htarget & _).
  - vm_compute. reflexivity.
  - vm_compute. reflexivity.
  - exists w', ev. repeat split; assumption.
Defined.

Lemma refused_validate_skips_commit_witness :
  (demo_submit demo_saved_files 500 200 "2025-07-20").1 = Ok false /\
  forall c,
    c ∈ trace (demo_submit demo_saved_files 500 200 "2025-07-20").2 ->
    ~ posts_json "https://engie.hrhub.ph/CertificateOfAttendance.aspx/Save" c.
Proof.
  apply (@refused_validate_skips_commit demo_platform "2025-07-20"
           (Some "09:32") (Some "17:30") "forgot to in/out" "forgot to in/out"
           (demo_world demo_saved_files (demo_portal 500 200 demo_accept_body))
           (trace (demo_submit demo_saved_files 500 200 "2025-07-20").2)
           (demo_event 2 (demo_submit demo_saved_files 500 200 "2025-07-20").2)
           {| status_code := 500;
              url := "https://engie.hrhub.ph/CertificateOfAttendance.aspx/ValidateSameFiling";
              text := "" |}).
  - reflexivity.
  - apply (list_elem_of_lookup_2 _ 2%nat). vm_compute. reflexivity.
  - split; [vm_compute; reflexivity|]. split; [vm_compute; reflexivity|].
    eexists. vm_compute. reflexivity.
  - vm_compute. reflexivity.
  - vm_compute. discriminate.
Defined.

Lemma commit_response_verdict_witness :
  (demo_submit demo_saved_files 200 200 "2025-07-20").1 = Ok true.
Proof.
  refine (proj1 (@commit_response_verdict demo_platform "2025-07-20"
           (Some "09:32") (Some "17:30") "forgot to in/out" "forgot to in/out"
           (demo_world demo_saved_files (demo_portal 200 200 demo_accept_body))
           (trace (demo_submit demo_saved_files 200 200 "2025-07-20").2)
           (demo_event 3 (demo_submit demo_saved_files 200 200 "2025-07-20").2)
           {| status_code := 200;
              url := "https://engie.hrhub.ph/CertificateOfAttendance.aspx/Save";
              text := demo_accept_body |} _ _ _ _ _)
           [("d", JObj [("IsSuccess", JBool true)])]
           (JObj [("IsSuccess", JBool true)]) _ _ _).
  - reflexivity.
  - apply (list_elem_of_lookup_2 _ 3%nat). vm_compute. reflexivity.
  - split; [vm_compute; reflexivity|]. split; [vm_compute; reflexivity|].
    eexists. vm_compute. reflexivity.
  - vm_compute. reflexivity.
  - reflexivity.
  - vm_compute. reflexivity.
  - reflexivity.
  - reflexivity.
Defined.




(** C6: the claim as stated fails.  A missing file and a damaged file
    give the same result, [False]. *)
Lemma load_failures_same_result :
  (@load_session demo_platform "engie_session.json"
     (demo_world ∅ demo_offline)).1 = Ok false /\
  (@load_session demo_platform "engie_session.json"
     (demo_world demo_damaged_files demo_offline)).1 = Ok false.
Proof. split; vm_compute; reflexivity. Qed.

Lemma load_session_failure_modes_witness :
  @load_session demo_platform "engie_session.json" (demo_world ∅ demo_offline) =
    (Ok false,
     said (not_found_line "engie_session.json") (demo_world ∅ demo_offline)).
Proof.
  exact (proj1 (proj2 (@load_session_failure_modes demo_platform
                         "engie_session.json" (demo_world ∅ demo_offline)))
               eq_refl).
Defined.


(** ** [strptime] on sample dates *)

Example strptime_canonical :
  strptime_ymd "2025-07-20" = Some {| year := 2025; month := 7; day := 20 |}.
Proof. reflexivity. Qed.

Example strptime_slashes : strptime_ymd "07/25/2025" = None.
Proof. reflexivity. Qed.

Example strptime_no_such_day : strptime_ymd "2025-02-30" = None.
Proof. reflexivity. Qed.

Example strptime_text_left_over : strptime_ymd "2025-07-203" = None.
Proof. reflexivity. Qed.

Example strptime_short_fields :
  strptime_ymd "2024-2-29" = Some {| year := 2024; month := 2; day := 29 |}.
Proof. reflexivity. Qed.

(** The scenarios of the specification: a valid session and both phases
    at 200 with an accepting envelope give [True]; a commit at 500 gives
    [False] after exactly one validate POST; without a persisted session
    a fresh login succeeds and leaves a session file. *)
Example scenario_accepted :
  (demo_submit demo_saved_files 200 200 "2025-07-20").1 = Ok true.
Proof. vm_compute. reflexivity. Qed.

Example scenario_commit_500 :
  (demo_submit demo_saved_files 200 500 "2025-07-20").1 = Ok false /\
  demo_calls (demo_submit demo_saved_files 200 500 "2025-07-20").2 =
    [(GET, "https://engie.hrhub.ph/EmployeeDashboard.aspx");
     (GET, "https://engie.hrhub.ph/EmployeeDashboard.aspx");
     (POST, "https://engie.hrhub.ph/CertificateOfAttendance.aspx/ValidateSameFiling");
     (POST, "https://engie.hrhub.ph/CertificateOfAttendance.aspx/Save")].
Proof. split; vm_compute; reflexivity. Qed.

Example scenario_fresh_login :
  (@_ensure_authenticated demo_platform
     (demo_world ∅ (demo_portal 200 200 demo_accept_body))).1 = Ok true /\
  is_Some (files (@_ensure_authenticated demo_platform
     (demo_world ∅ (demo_portal 200 200 demo_accept_body))).2
     !! "engie_session.json").
Proof. split; [vm_compute; reflexivity|]. vm_compute. eexists. reflexivity. Qed.

(** * Further properties: the other methods and the callers *)

(** One step of a proof that a computation [keeps] or [returns]. *)
Ltac step_keeps :=
  first
    [ apply keeps_ret | apply keeps_raise | apply keeps_gets
    | apply keeps_print | apply keeps_read_json | apply keeps_write_json
    | apply keeps_send; discriminate
    | apply keeps_modify; reflexivity
    | apply keeps_bind; [|intros ?]
    | apply keeps_try; [|intros ?]
    | match goal with
      | |- keeps (if ?b then _ else _) => destruct b
      | |- keeps (match ?x with _ => _ end) => destruct x
      end ].

Ltac step_returns :=
  first
    [ apply returns_ret | apply returns_print | apply returns_gets
    | apply returns_bind; [|intros ?]
    | apply returns_try; intros ?
    | match goal with
      | |- returns (if ?b then _ else _) => destruct b
      | |- returns (match ?x with _ => _ end) => destruct x
      end ].

(** ** Dates *)






(** What the field matchers consume. *)
Lemma match_Y_consumes s y r :
  match_Y s = Some (y, r) ->
  exists a b c d,
    s = String a (String b (String c (String d r))) /\
    is_digit a = true /\ is_digit b = true /\ is_digit c = true /\
    is_digit d = true.
Proof.
  unfold match_Y. destruct s as [|a [|b [|c [|d r']]]]; try done.
  destruct (is_digit a) eqn:Ha, (is_digit b) eqn:Hb, (is_digit c) eqn:Hc,
    (is_digit d) eqn:Hd; try done.
  intros [= _ <-]. by exists a, b, c, d.
Qed.

Lemma match_m_consumes s m r :
  match_m s = Some (m, r) ->
  (exists a, s = String a r) \/ (exists a b, s = String a (String b r)).
Proof.
  unfold match_m. destruct s as [|a [|b r']]; [done| |].
  - destruct (in_range "1" "9" a); [|done]. intros [= _ <-]. left. by exists a.
  - repeat match goal with
           | |- context [if ?c then _ else _] => destruct c
           end; try done; intros [= _ <-]; eauto.
Qed.

Lemma match_d_consumes s d r :
  match_d s = Some (d, r) ->
  (exists a, s = String a r) \/ (exists a b, s = String a (String b r)).
Proof.
  unfold match_d. destruct s as [|a [|b r']]; [done| |].
  - destruct (in_range "1" "9" a); [|done]. intros [= _ <-]. left. by exists a.
  - repeat match goal with
           | |- context [if ?c then _ else _] => destruct c
           end; try done; intros [= _ <-]; eauto.
Qed.

(** Text that starts with a one- or two-character field and a slash does
    not start with a four-digit year. *)
Lemma slash_after_field_no_year s r :
  (exists a, s = String a (String "/" r)) \/
  (exists a b, s = String a (String b (String "/" r))) ->
  match_Y s = None.
Proof.
  intros [(a & ->)|(a & b & ->)]; unfold match_Y.
  - destruct r as [|c [|d r']]; try done.
    replace (is_digit "/") with false by reflexivity.
    by rewrite andb_false_r.
  - destruct r as [|d r']; try done.
    replace (is_digit "/") with false by reflexivity.
    by rewrite andb_false_r.
Qed.

Lemma fmt_mdy_no_year s d : strptime fmt_mdy s = Some d -> match_Y s = None.
Proof.
  unfold strptime, fmt_mdy.
  destruct (match_format _ _ s) as [x|] eqn:Hrun; [|done]. intros _.
  cbn [match_format] in Hrun.
  destruct (match_m s) as [[m s1]|] eqn:Hm; [|done].
  destruct s1 as [|c r]; [done|].
  destruct (Ascii.eqb_spec "/" c) as [<-|]; [|done].
  apply slash_after_field_no_year with (r := r).
  destruct (match_m_consumes _ _ _ Hm) as [(a & ->)|(a & b & ->)]; eauto.
Qed.

Lemma fmt_dmy_no_year s d : strptime fmt_dmy s = Some d -> match_Y s = None.
Proof.
  unfold strptime, fmt_dmy.
  destruct (match_format _ _ s) as [x|] eqn:Hrun; [|done]. intros _.
  cbn [match_format] in Hrun.
  destruct (match_d s) as [[dd s1]|] eqn:Hd; [|done].
  destruct s1 as [|c r]; [done|].
  destruct (Ascii.eqb_spec "/" c) as [<-|]; [|done].
  apply slash_after_field_no_year with (r := r).
  destruct (match_d_consumes _ _ _ Hd) as [(a & ->)|(a & b & ->)]; eauto.
Qed.

Lemma no_year_no_dash_format s : match_Y s = None -> strptime fmt_ymd_dash s = None.
Proof.
  intros Hy. unfold strptime, fmt_ymd_dash. cbn [match_format]. by rewrite Hy.
Qed.

(** X1. [_parse_dates] reads a date written with slashes month first:
    when ['%m/%d/%Y'] accepts the text, that reading is the result, even
    if ['%d/%m/%Y'] accepts it too; the day-first reading is the result
    only when the month-first one fails. *)
Theorem parse_dates_month_first (s : string) (d : date) :
  (strptime fmt_mdy s = Some d -> first_format formats_to_try s = Some d) /\
  (strptime fmt_mdy s = None -> strptime fmt_dmy s = Some d ->
   first_format formats_to_try s = Some d).
Proof.
  unfold formats_to_try. cbn [first_format]. split.
  - intros Hmdy.
    by rewrite (no_year_no_dash_format s (fmt_mdy_no_year s d Hmdy)), Hmdy.
  - intros Hmdy Hdmy.
    by rewrite (no_year_no_dash_format s (fmt_dmy_no_year s d Hdmy)), Hmdy, Hdmy.
Qed.

Lemma parse_dates_month_first_witness :
  first_format formats_to_try "01/02/2025"
    = Some {| year := 2025; month := 1; day := 2 |} /\
  first_format formats_to_try "13/02/2025"
    = Some {| year := 2025; month := 2; day := 13 |}.
Proof.
  split.
  - exact (proj1 (parse_dates_month_first "01/02/2025"
                    {| year := 2025; month := 1; day := 2 |}) eq_refl).
  - exact (proj2 (parse_dates_month_first "13/02/2025"
                    {| year := 2025; month := 2; day := 13 |}) eq_refl eq_refl).
Defined.



(** *** What [strftime] prints, [strptime] reads *)

Lemma digit_char_digit n :
  0 <= n <= 9 -> is_digit (digit_char n) = true /\ digit_val (digit_char n) = n.
Proof.
  intros Hn.
  assert (exists k : nat, n = Z.of_nat k /\ (k <= 9)%nat) as (k & -> & Hk).
  { exists (Z.to_nat n). lia. }
  do 10 (destruct k as [|k]; [by split|]). lia.
Qed.

Lemma match_Y_four_digits y rest :
  0 <= y <= 9999 -> match_Y (four_digits y rest) = Some (y, rest).
Proof.
  intros Hy. unfold four_digits, two_digits, match_Y.
  assert (0 <= y / 1000 <= 9) as Ha
    by (Z.to_euclidean_division_equations; lia).
  assert (0 <= y / 100 mod 10 <= 9) as Hb
    by (Z.to_euclidean_division_equations; lia).
  assert (0 <= y mod 100 / 10 <= 9) as Hc
    by (Z.to_euclidean_division_equations; lia).
  assert (0 <= y mod 100 mod 10 <= 9) as Hd
    by (Z.to_euclidean_division_equations; lia).
  destruct (digit_char_digit _ Ha) as [Ha1 Ha2].
  destruct (digit_char_digit _ Hb) as [Hb1 Hb2].
  destruct (digit_char_digit _ Hc) as [Hc1 Hc2].
  destruct (digit_char_digit _ Hd) as [Hd1 Hd2].
  rewrite Ha1, Hb1, Hc1, Hd1. cbn [andb digits_value].
  rewrite Ha2, Hb2, Hc2, Hd2. do 2 f_equal.
  Z.to_euclidean_division_equations; lia.
Qed.

Lemma match_m_two_digits m rest :
  1 <= m <= 12 -> match_m (two_digits m (String "-" rest)) = Some (m, String "-" rest).
Proof.
  intros Hm.
  assert (exists k : nat, m = Z.of_nat k /\ (1 <= k <= 12)%nat) as (k & -> & Hk).
  { exists (Z.to_nat m). lia. }
  do 13 (destruct k as [|k]; [first [lia | reflexivity]|]). lia.
Qed.

Lemma match_d_two_digits d :
  1 <= d <= 31 -> match_d (two_digits d "") = Some (d, "").
Proof.
  intros Hd.
  assert (exists k : nat, d = Z.of_nat k /\ (1 <= k <= 31)%nat) as (k & -> & Hk).
  { exists (Z.to_nat d). lia. }
  do 32 (destruct k as [|k]; [first [lia | reflexivity]|]). lia.
Qed.

Lemma days_in_month_le_31 y m : days_in_month y m <= 31.
Proof.
  unfold days_in_month.
  repeat match goal with |- context [if ?c then _ else _] => destruct c end; lia.
Qed.

(** X3. Round trip with [strftime('%Y-%m-%d')]: for every date of the
    calendar whose year has four digits, [strptime] reads back the text
    that [strftime] prints, so that a date printed by the callers always
    passes the date check of [apply_coa]. *)
Theorem strptime_strftime_roundtrip (d : date) :
  calendar_date d -> 1000 <= year d ->
  strptime_ymd (strftime_ymd d) = Some d.
Proof.
  intros (Hy & Hm & Hd) Hy4. destruct d as [y m dd]. cbn [year month day] in *.
  unfold strptime_ymd, strftime_ymd. cbn [year month day].
  rewrite match_Y_four_digits by lia. cbn [match_dash].
  rewrite match_m_two_digits by lia. cbn [match_dash].
  pose proof (days_in_month_le_31 y m).
  rewrite match_d_two_digits by lia.
  unfold make_date.
  replace ((1 <=? y) && (y <=? 9999) && (1 <=? m) && (m <=? 12)
           && (1 <=? dd) && (dd <=? days_in_month y m)) with true; [done|].
  symmetry. repeat (apply andb_true_intro; split); lia.
Qed.

Lemma strptime_strftime_roundtrip_witness :
  strptime_ymd (strftime_ymd {| year := 2024; month := 2; day := 29 |})
    = Some {| year := 2024; month := 2; day := 29 |}.
Proof.
  apply strptime_strftime_roundtrip.
  - unfold calendar_date. repeat split; by vm_compute.
  - by vm_compute.
Defined.

(** ** Running the methods inside their callers *)

(** Runs the first call of the goal: [a] is what it returns, [w'] the
    world it leaves and [Hs] the steps it made. *)
Ltac run_next a w' Hs :=
  match goal with
  | |- context [bind ?c ?k ?w] =>
      let Hrun := fresh "Hrun" in
      destruct (run_bind c k w) as (a & w' & Hs & Hrun);
      [ first [ apply _ensure_authenticated_returns
              | apply _get_employee_id_returns
              | apply apply_coa_returns
              | apply test_authenticated_access_returns
              | apply get_initial_auth_params_returns
              | apply perform_login_returns
              | apply save_session_returns
              | repeat step_returns ]
      | first [ apply _ensure_authenticated_keeps
              | apply _get_employee_id_keeps
              | apply test_authenticated_access_keeps
              | apply get_initial_auth_params_keeps
              | apply perform_login_keeps
              | apply save_session_keeps
              | apply load_session_keeps
              | repeat step_keeps ]
      | rewrite Hrun; clear Hrun; cbv beta ]
  end.

Section MoreProperties.
Context `{Platform}.

Lemma steps_after_said w w1 l : steps (said l w) w1 -> steps w w1.
Proof. intros Hs. exact Hs. Qed.

Lemma load_session_run filename w :
  exists b w1,
    load_session filename w = (Ok b, w1) /\ trace w1 = trace w /\
    base_url w1 = base_url w /\ files w1 = files w.
Proof.
  destruct (load_session_returns filename w) as (b & jar & lines & Hrun).
  by eexists b, _.
Qed.

(** X4. [clock_in] and [clock_out] never succeed: both return [False]
    for every world, raise nothing, and what they leave of the network
    log, of the jar and of the files is what [_ensure_authenticated]
    leaves. *)
Theorem clock_methods_never_succeed (w : World) :
  (exists w',
     clock_in w = (Ok false, w') /\
     trace w' = trace (_ensure_authenticated w).2 /\
     cookies w' = cookies (_ensure_authenticated w).2 /\
     files w' = files (_ensure_authenticated w).2) /\
  (exists w',
     clock_out w = (Ok false, w') /\
     trace w' = trace (_ensure_authenticated w).2 /\
     cookies w' = cookies (_ensure_authenticated w).2 /\
     files w' = files (_ensure_authenticated w).2).
Proof.
  destruct (_ensure_authenticated_returns w) as [b Hb].
  destruct (_ensure_authenticated w) as [res w1] eqn:Hrun.
  cbn [fst snd] in *. subst res.
  split; unfold clock_in, clock_out, try_except;
    rewrite (bind_ok _ _ _ _ _ Hrun); destruct b; cbn [negb];
    rewrite ?bind_print; by eexists.
Qed.

(** ** The submission, seen from its log *)

Lemma steps_try {A} (c : M A) (h : Exn -> M A) w :
  steps w (c w).2 -> (forall e, keeps (h e)) -> steps w (try_except c h w).2.
Proof.
  intros Hc Hh. unfold try_except.
  destruct (c w) as [[a|e] w1]; cbn [fst snd] in *; [done|].
  eapply steps_trans; [exact Hc | apply Hh].
Qed.

Lemma apply_coa_stops_early d tin tout r t w :
  opt_truthy tin || opt_truthy tout = false \/ strptime_ymd d = None ->
  steps w (apply_coa d tin tout r t w).2.
Proof.
  intros Hearly. unfold apply_coa.
  apply steps_try; [|intros e; repeat step_keeps].
  destruct (negb (opt_truthy tin) && negb (opt_truthy tout)) eqn:Htimes.
  { rewrite bind_print. unfold ret. cbn [fst snd]. apply steps_said, steps_refl. }
  destruct Hearly as [Hnone|Hdate].
  { destruct (opt_truthy tin), (opt_truthy tout); done. }
  run_next b1 w1 Hs1.
  destruct b1; cbn [negb];
    [|rewrite bind_print; unfold ret; cbn [fst snd]; by apply steps_said].
  rewrite bind_print.
  run_next u1 w2 Hs2. run_next u2 w3 Hs3.
  rewrite Hdate, bind_print. unfold ret. cbn [fst snd].
  apply steps_said.
  eapply steps_trans; [exact Hs1|].
  eapply steps_trans; [|exact Hs3]. exact Hs2.
Qed.


Lemma apply_coa_true_run d tin tout r t w new :
  (apply_coa d tin tout r t w).1 = Ok true ->
  trace (apply_coa d tin tout r t w).2 = trace w ++ new ->
  exists pre v c payload,
    new = pre ++ [v; c] /\ Forall no_payload pre /\
    posts (validate_url (base_url w)) payload v /\ passed v /\
    posts (submit_url (base_url w)) payload c /\ passed c.
Proof.
  intros Hres Htrace.
  destruct (apply_coa_outcome d tin tout r t w)
    as [w' pre Htr Hno | w' pre tail employee_id b Htr Hno Hid Hsub];
    [done|].
  rewrite Htr in Htrace. apply app_inv_head in Htrace. subst new.
  injection Hres as ->.
  inversion Hsub as [| | v c resp b wx Hv Hpv Hc Hans Hst Hread]; subst.
  eexists pre, v, c, _.
  split; [done|]. split; [done|]. split; [exact Hv|]. split; [done|].
  split; [exact Hc|]. by exists resp.
Qed.

(** X6. [apply_coa] returns [True] only after both phases were accepted:
    the log of the run ends with the validate POST and the commit POST of
    one and the same payload, both answered with status 200. *)
Theorem accepted_means_committed (target_date : string)
    (time_in time_out : option string) (reason type_other : string)
    (w : World) (new : list Event) :
  (apply_coa target_date time_in time_out reason type_other w).1 = Ok true ->
  trace (apply_coa target_date time_in time_out reason type_other w).2
    = trace w ++ new ->
  exists pre v c payload,
    new = pre ++ [v; c] /\ Forall no_payload pre /\
    posts (validate_url (base_url w)) payload v /\ passed v /\
    posts (submit_url (base_url w)) payload c /\ passed c.
Proof. apply apply_coa_true_run. Qed.

(** X7. No commit without validation: in every run of [apply_coa], an
    exchange that posts a payload to the commit address is the last one of
    the run and comes right after the POST of the same payload to the
    validate address, which was answered with status 200. *)
Theorem commit_follows_validation (target_date : string)
    (time_in time_out : option string) (reason type_other : string)
    (w : World) (new : list Event) (c : Event) :
  trace (apply_coa target_date time_in time_out reason type_other w).2
    = trace w ++ new ->
  c ∈ new ->
  posts_json (submit_url (base_url w)) c ->
  exists pre v,
    new = pre ++ [v; c] /\
    method (request v) = POST /\
    target (request v) = validate_url (base_url w) /\
    body (request v) = body (request c) /\
    passed v.
Proof.
  intros Htrace Hc Hcommit.
  destruct (apply_coa_outcome target_date time_in time_out reason type_other w)
    as [w' pre Htr Hno | w' pre tail employee_id b Htr Hno Hid Hsub].
  { rewrite Htr in Htrace. apply app_inv_head in Htrace. subst pre.
    by destruct (not_in_steps _ c new Hno Hcommit). }
  rewrite Htr in Htrace. apply app_inv_head in Htrace. subst new.
  apply elem_of_app in Hc as [Hc|Hc].
  { by destruct (not_in_steps _ c pre Hno Hcommit). }
  assert (Hclash : forall ev payload,
             posts (validate_url (base_url w)) payload ev ->
             ev = c -> False).
  { intros ev payload (_ & Ht1 & _) ->. destruct Hcommit as (_ & Ht2 & _).
    apply (validate_url_not_submit_url (base_url w)). congruence. }
  assert (Hlast : forall v0 c0 payload,
             posts (validate_url (base_url w)) payload v0 -> passed v0 ->
             posts (submit_url (base_url w)) payload c0 ->
             c ∈ [v0; c0] ->
             exists pre0 v,
               pre ++ [v0; c0] = pre0 ++ [v; c] /\
               method (request v) = POST /\
               target (request v) = validate_url (base_url w) /\
               body (request v) = body (request c) /\ passed v).
  { intros v0 c0 payload Hv0 Hp0 Hc0 Hin.
    apply elem_of_cons in Hin as [Heq|Hin];
      [by destruct (Hclash v0 payload Hv0)|].
    apply list_elem_of_singleton in Hin as ->.
    exists pre, v0. destruct Hv0 as (? & ? & Hb1), Hc0 as (? & ? & Hb2).
    repeat split; try done. congruence. }
  destruct Hsub as [v0 Hv0 Href | v0 c0 Hv0 Hpass Hc0 Href
                   | v0 c0 cresp b wx Hv0 Hpass Hc0 Hans Hst Hread].
  - apply list_elem_of_singleton in Hc. by destruct (Hclash v0 _ Hv0).
  - by eapply Hlast.
  - by eapply Hlast.
Qed.

(** ** The session store at its edges *)

(** X8. Documents that decode but are not a cookie mapping.  A document
    without a [cookies] member loads successfully and leaves the jar as
    it was; a document that is not an object makes the load fail, the jar
    untouched; a mapping that ends with a [null] value loads
    successfully and leaves no cookie of that name in the jar, the
    entries before it set as usual. *)
Theorem load_session_edge_documents (filename : string) (w : World)
    (d : file_data) (j : json) :
  files w !! filename = Some d ->
  json_load d = Some j ->
  (forall members,
     j = JObj members -> dict_get "cookies" members = None ->
     load_session filename w = (Ok true, said (loaded_line filename) w)) /\
  ((forall members, j <> JObj members) ->
     load_session filename w =
       (Ok false, said (load_error_line AttributeError) w)) /\
  (forall members items name,
     j = JObj members ->
     dict_get "cookies" members = Some (JObj (items ++ [(name, JNull)])) ->
     exists w',
       load_session filename w = (Ok true, w') /\
       cookies w' = delete name (set_all items (cookies w)) /\
       cookies w' !! name = None).
Proof.
  intros Hf Hd. unfold load_session, try_except, bind, read_json.
  rewrite Hf, Hd. split; [|split].
  - intros members -> Hc. rewrite Hc. cbn. unfold said, loaded_line, line.
    by destruct w.
  - intros Hj. destruct j; try done. by destruct (Hj members).
  - intros members items name -> Hc. rewrite Hc. eexists. split; [done|].
    cbn [cookies said with_cookies with_console modify ret fst snd].
    rewrite set_all_app. cbn [set_all fold_left cookies_set fst snd].
    split; [done | apply lookup_delete_eq].
Qed.

Lemma save_session_run filename w :
  exists b w1,
    save_session filename w = (Ok b, w1) /\ trace w1 = trace w /\
    base_url w1 = base_url w /\ cookies w1 = cookies w.
Proof.
  destruct (writable w filename) eqn:Hw.
  - rewrite save_session_writable by done. by eexists _, _.
  - rewrite save_session_unwritable by done. by eexists _, _.
Qed.


(** ** The probe and the lifecycle manager *)

(** When the probe returns [True], its one exchange came back with status
    200 and a page that shows the marker. *)
Lemma test_authenticated_access_true w w1 :
  test_authenticated_access w = (Ok true, w1) ->
  base_url w1 = base_url w /\
  trace w1 = trace w ++ [exchanged (probe_request w) w] /\
  exists resp,
    answered (exchanged (probe_request w) w) resp /\
    status_code resp = 200 /\
    py_in "Employee Dashboard" (text resp) = true.
Proof.
  unfold test_authenticated_access, try_except, session_get.
  rewrite bind_print, bind_gets, bind_send.
  set (w0 := said _ w).
  set (rq := {| method := GET |}).
  change (outcome (server w0 (trace w0) rq))
    with (outcome (server w (trace w) (probe_request w))).
  destruct (outcome (server w (trace w) (probe_request w))) as [e|resp] eqn:Hout.
  { rewrite bind_print. by intros [=]. }
  destruct (status_code resp =? 200) eqn:Hst; cbn [andb].
  2: { rewrite bind_print. by intros [=]. }
  destruct (py_in "Employee Dashboard" (text resp)) eqn:Hin.
  2: { rewrite bind_print. by intros [=]. }
  rewrite bind_print.
  assert (Hgoal : forall wx : World,
    base_url wx = base_url w ->
    trace wx = trace w ++ [exchanged (probe_request w) w] ->
    base_url wx = base_url w /\
    trace wx = trace w ++ [exchanged (probe_request w) w] /\
    exists resp0, answered (exchanged (probe_request w) w) resp0 /\
      status_code resp0 = 200 /\
      py_in "Employee Dashboard" (text resp0) = true).
  { intros wx Hb Ht. split; [done|]. split; [done|].
    exists resp. split; [exact Hout|]. split; [lia | done]. }
  destruct (has_attendance (text resp)).
  - rewrite bind_print. intros [= <-]. by apply Hgoal.
  - rewrite bind_ret. intros [= <-]. by apply Hgoal.
Qed.

Lemma try_except_true (c : M bool) (h : Exn -> M bool) w :
  (forall e w1, (h e w1).1 <> Ok true) ->
  (try_except c h w).1 = Ok true ->
  c w = (Ok true, (try_except c h w).2).
Proof.
  intros Hh. unfold try_except.
  destruct (c w) as [[b|e] w1]; cbn [fst snd].
  - by intros [= ->].
  - intros Hres. by destruct (Hh e w1).
Qed.

Lemma probe_ends_run w0 w w1 :
  steps w0 w -> test_authenticated_access w = (Ok true, w1) ->
  ends_with_probe w0 w1.
Proof.
  intros (Hbase & pre & Htr & _) Hprobe.
  destruct (test_authenticated_access_true w w1 Hprobe)
    as (_ & Htr1 & resp & Hans & Hst & Hin).
  exists pre, (exchanged (probe_request w) w), resp.
  split; [by rewrite Htr1, Htr, app_assoc|].
  split; [done|]. split; [|done].
  unfold exchanged, probe_request, get_request, dashboard_url.
  cbn [request target]. by rewrite Hbase.
Qed.

Lemma ends_with_probe_same_trace w0 w1 w2 :
  trace w2 = trace w1 -> ends_with_probe w0 w1 -> ends_with_probe w0 w2.
Proof.
  intros Htr (pre & ev & resp & Ht & Hrest). exists pre, ev, resp.
  split; [congruence | done].
Qed.

Lemma fresh_authentication_true w0 w :
  steps w0 w ->
  (fresh_authentication w).1 = Ok true ->
  ends_with_probe w0 (fresh_authentication w).2.
Proof.
  intros Hs0. unfold fresh_authentication.
  rewrite !bind_gets, bind_print.
  run_next got w1 Hs1. destruct got; cbn [negb];
    [|rewrite bind_print; by intros [=]].
  run_next logged w2 Hs2. destruct logged; cbn [negb];
    [|rewrite bind_print; by intros [=]].
  assert (Hs : steps w0 w2).
  { eapply steps_trans; [exact Hs0|].
    eapply steps_trans; [exact Hs1 | exact Hs2]. }
  destruct (test_authenticated_access_returns w2) as [verified Hv].
  destruct (test_authenticated_access w2) as [res w3] eqn:Hprobe.
  cbn [fst] in Hv. subst res. rewrite (bind_ok _ _ _ _ _ Hprobe).
  destruct verified; cbn [negb]; [|rewrite bind_print; by intros [=]].
  destruct (save_session_run (session_file w) w3) as (b & w4 & Hsave & Htr & _).
  rewrite (bind_ok _ _ _ _ _ Hsave), bind_print.
  intros _. unfold ret. cbn [snd].
  apply (ends_with_probe_same_trace w0 w3); [by rewrite trace_said|].
  by eapply probe_ends_run.
Qed.

(** X10. What [True] from [_ensure_authenticated] means: the last
    exchange of the run is the probe, a GET of the dashboard page that
    came back with status 200 and the text "Employee Dashboard"; this
    holds on the reuse path and after a fresh login alike. *)
Theorem authenticated_means_probe_passed (w : World) :
  (_ensure_authenticated w).1 = Ok true ->
  exists pre ev resp,
    trace (_ensure_authenticated w).2 = trace w ++ pre ++ [ev] /\
    method (request ev) = GET /\
    target (request ev) = dashboard_url w /\
    answered ev resp /\ status_code resp = 200 /\
    py_in "Employee Dashboard" (text resp) = true.
Proof.
  intros Htrue.
  change (ends_with_probe w (_ensure_authenticated w).2).
  unfold _ensure_authenticated in *.
  apply try_except_true in Htrue; [|by intros e w1].
  match type of Htrue with _ = (_, ?wf) => set (w' := wf) in * end.
  clearbody w'. revert Htrue.
  rewrite bind_gets.
  destruct (load_session_run (session_file w) w)
    as (loaded & w1 & Hload & Htr1 & Hb1 & _).
  rewrite (bind_ok _ _ _ _ _ Hload).
  assert (Hs1 : steps w w1).
  { split; [done|]. exists []. by rewrite app_nil_r. }
  destruct loaded.
  - destruct (test_authenticated_access_returns w1) as [valid Hv].
    destruct (test_authenticated_access w1) as [res w2] eqn:Hprobe.
    cbn [fst] in Hv. subst res. rewrite (bind_ok _ _ _ _ _ Hprobe).
    destruct valid.
    + rewrite bind_print. intros [= <-].
      apply (ends_with_probe_same_trace w w2); [done|].
      by eapply probe_ends_run.
    + rewrite bind_print. intros Hfresh.
      pose proof (fresh_authentication_true w
                    (said (line "🔄 Existing session expired, performing fresh authentication..." []) w2)) as Hend.
      rewrite Hfresh in Hend. apply Hend; [|done].
      apply steps_said. eapply steps_trans; [exact Hs1|].
      pose proof (test_authenticated_access_keeps w1) as Hk.
      by rewrite Hprobe in Hk.
  - rewrite bind_print. intros Hfresh.
    pose proof (fresh_authentication_true w
                  (said (line "🔄 No existing session found, performing fresh authentication..." []) w1)) as Hend.
    rewrite Hfresh in Hend. apply Hend; [|done].
    by apply steps_said.
Qed.

(** ** The credential step *)

Lemma bind_raise {A B} e (k : A -> M B) w : bind (raise e) k w = (Raise e, w).
Proof. reflexivity. Qed.

(** X11. [perform_login] before [get_initial_auth_params]: while
    [login_action_url] is unset the method returns [False] and sends
    nothing; the jar is untouched. *)
Theorem perform_login_without_form (user pass : string) (w : World) :
  login_action_url w = None ->
  exists w',
    perform_login user pass w = (Ok false, w') /\
    trace w' = trace w /\ cookies w' = cookies w.
Proof.
  intros Hnone. unfold perform_login, try_except.
  rewrite bind_print, bind_gets. cbv zeta. rewrite bind_gets.
  cbn [login_action_url said with_console]. rewrite Hnone, bind_raise.
  by eexists.
Qed.

(** X12. [perform_login] returns [True] only along one path: the
    credentials were posted as a form to the address found by
    [get_initial_auth_params], with redirects not followed and an empty
    [credentialId]; the form that came back was posted in turn; and that
    second POST ended on a URL that contains both [engie.hrhub.ph] and
    [EmployeeDashboard.aspx].  The run makes exactly these two exchanges
    and leaves in [dashboard_cookies] a copy of the jar. *)
Theorem perform_login_success_path (user pass : string) (w : World) :
  (perform_login user pass w).1 = Ok true ->
  exists action p1 p2 landing,
    login_action_url w = Some action /\
    trace (perform_login user pass w).2 = trace w ++ [p1; p2] /\
    method (request p1) = POST /\ target (request p1) = action /\
    body (request p1)
      = FormData [("username", user); ("password", pass); ("credentialId", "")] /\
    allow_redirects (request p1) = false /\
    method (request p2) = POST /\
    answered p2 landing /\
    py_in "engie.hrhub.ph" (url landing) = true /\
    py_in "EmployeeDashboard.aspx" (url landing) = true /\
    dashboard_cookies (perform_login user pass w).2
      = cookies (perform_login user pass w).2.
Proof.
  unfold perform_login, try_except.
  rewrite bind_print, bind_gets. cbv zeta. rewrite bind_gets.
  set (w0 := said _ w).
  change (login_action_url w0) with (login_action_url w).
  destruct (login_action_url w) as [action|]; [|by rewrite bind_raise].
  rewrite bind_ret. unfold session_post. rewrite bind_send.
  set (rq1 := {| method := POST; target := action |}).
  destruct (outcome (server w0 (trace w0) rq1)) as [e|response]; [done|].
  rewrite bind_print.
  destruct (status_code response =? 200); [|by rewrite bind_print].
  cbv zeta.
  destruct (opt_truthy (find_form (text response) ≫= form_action)).
  2: { by destruct (find_feedback (text response)); rewrite bind_print. }
  rewrite bind_print, bind_send.
  set (w1 := said _ (said _ (after_send rq1 w0))).
  set (rq2 := {| method := POST; allow_redirects := true |}).
  destruct (outcome (server w1 (trace w1) rq2)) as [e|landing] eqn:Hland;
    [done|].
  rewrite bind_print.
  destruct (py_in "engie.hrhub.ph" (url landing)) eqn:Hhost; cbn [andb];
    [|by rewrite bind_print].
  destruct (py_in "EmployeeDashboard.aspx" (url landing)) eqn:Hpage;
    [|by rewrite bind_print].
  rewrite bind_print, bind_gets. intros _.
  exists action, (exchanged rq1 w0), (exchanged rq2 w1), landing.
  split; [done|]. split.
  { cbn [bind modify ret fst snd trace with_dashboard_cookies said
         with_console].
    rewrite trace_after_send. unfold w1.
    by rewrite !trace_said, trace_after_send, <- app_assoc. }
  by repeat split.
Qed.

(** ** The identity resolver *)



(** ** Dicts built by assignment *)

Lemma dict_get_set_eq {V} k (v : V) d : dict_get k (dict_set k v d) = Some v.
Proof.
  induction d as [|[k' v'] d IH]; cbn [dict_set dict_get].
  - by rewrite String.eqb_refl.
  - destruct (String.eqb k k') eqn:Hk; cbn [dict_get]; by rewrite ?String.eqb_refl, ?Hk.
Qed.

Lemma dict_get_set_ne {V} k k' (v : V) d :
  k <> k' -> dict_get k' (dict_set k v d) = dict_get k' d.
Proof.
  intros Hne. induction d as [|[k0 v0] d IH]; cbn [dict_set dict_get].
  - destruct (String.eqb_spec k' k); [congruence | done].
  - destruct (String.eqb_spec k k0) as [<-|Hk0]; cbn [dict_get].
    + by destruct (String.eqb_spec k' k); [congruence|].
    + destruct (String.eqb_spec k' k0); [done | exact IH].
Qed.

Lemma dict_set_keys {V} k (v : V) d name :
  name ∈ (dict_set k v d).*1 <-> name = k \/ name ∈ d.*1.
Proof.
  induction d as [|[k0 v0] d IH]; cbn [dict_set].
  - cbn. rewrite list_elem_of_singleton, elem_of_nil. tauto.
  - destruct (String.eqb_spec k k0) as [<-|Hk0]; cbn; rewrite !elem_of_cons.
    + tauto.
    + rewrite IH. tauto.
Qed.

Lemma dict_set_NoDup {V} k (v : V) d : NoDup d.*1 -> NoDup (dict_set k v d).*1.
Proof.
  induction d as [|[k0 v0] d IH]; cbn [dict_set].
  - intros _. cbn. apply NoDup_singleton.
  - cbn. intros [Hnot Hnd]%NoDup_cons.
    destruct (String.eqb_spec k k0) as [<-|Hk0]; cbn.
    + by apply NoDup_cons.
    + apply NoDup_cons. split; [|by apply IH].
      rewrite dict_set_keys. intros [->|?]; done.
Qed.


Lemma collect_inputs_snoc inputs name value :
  collect_inputs (inputs ++ [(name, value)]) =
    match name with
    | Some n =>
        if str_truthy n then dict_set n (default "" value) (collect_inputs inputs)
        else collect_inputs inputs
    | None => collect_inputs inputs
    end.
Proof. unfold collect_inputs. by rewrite fold_left_app. Qed.

(** X14. The form data of the post-back: [perform_login] keeps one entry
    for each distinct, non-empty input name of the form; an input without
    a name or with an empty name adds nothing; when a name comes again
    its later value replaces the earlier one; a missing value is the
    empty text. *)
Theorem post_back_form_data (inputs : list (option string * option string)) :
  NoDup (collect_inputs inputs).*1 /\
  (forall name, name ∈ (collect_inputs inputs).*1 ->
     name <> "" /\ exists value, (Some name, value) ∈ inputs) /\
  (forall name value other,
     name <> "" ->
     dict_get name (collect_inputs (inputs ++ [(Some name, value)]))
       = Some (default "" value) /\
     (other <> name ->
      dict_get other (collect_inputs (inputs ++ [(Some name, value)]))
        = dict_get other (collect_inputs inputs))) /\
  (forall value,
     collect_inputs (inputs ++ [(None, value)]) = collect_inputs inputs /\
     collect_inputs (inputs ++ [(Some "", value)]) = collect_inputs inputs).
Proof.
  split; [|split; [|split]].
  - induction inputs as [|[name value] inputs IH] using rev_ind; [constructor|].
    rewrite collect_inputs_snoc. destruct name as [n|]; [|done].
    destruct (str_truthy n); [by apply dict_set_NoDup | done].
  - induction inputs as [|[name value] inputs IH] using rev_ind.
    { intros name Hin. by apply elem_of_nil in Hin. }
    intros name0. rewrite collect_inputs_snoc.
    assert (Hold : name0 ∈ (collect_inputs inputs).*1 ->
              name0 <> "" /\ exists v, (Some name0, v) ∈ inputs ++ [(name, value)]).
    { intros Hin. destruct (IH name0 Hin) as (Hne & v & Hv).
      split; [done|]. exists v. apply elem_of_app. by left. }
    destruct name as [n|]; [|done].
    destruct (str_truthy n) eqn:Hn; [|done].
    rewrite dict_set_keys. intros [->|Hin]; [|by apply Hold].
    split; [by destruct n|]. exists value.
    apply elem_of_app. right. by apply list_elem_of_singleton.
  - intros name value other Hname. rewrite collect_inputs_snoc.
    assert (str_truthy name = true) as -> by (by destruct name).
    split; [apply dict_get_set_eq|].
    intros Hother. by apply dict_get_set_ne.
  - intros value. by rewrite !collect_inputs_snoc.
Qed.

(** ** The command-line caller *)

Lemma bind_modify {B} f (k : unit -> M B) w : bind (modify f) k w = k tt (f w).
Proof. reflexivity. Qed.



(** X16. The command line does not log in by itself: when the file
    [test_session.json] is missing or does not decode, it ends with
    status 1 without sending anything, whatever other session file
    exists. *)
Theorem cli_needs_saved_session (user pass : string)
    (default_headers : list (string * string)) (args : Args) (w : World)
    (d : date) :
  opt_truthy (arg_time_in args) || opt_truthy (arg_time_out args) = true ->
  strptime_ymd (arg_date args) = Some d ->
  files w !! "test_session.json" = None \/
    (exists data, files w !! "test_session.json" = Some data /\
                  json_load data = None) ->
  exists w',
    cli_main user pass default_headers args w = (Ok 1, w') /\
    trace w' = trace w /\ files w' = files w.
Proof.
  intros Htimes Hdate Hfile. unfold cli_main.
  replace (negb (opt_truthy (arg_time_in args))
           && negb (opt_truthy (arg_time_out args))) with false
    by (destruct (opt_truthy (arg_time_in args)),
          (opt_truthy (arg_time_out args)); done).
  rewrite Hdate, bind_modify.
  set (w0 := new_login user pass default_headers w).
  assert (Hload : exists l, load_session "test_session.json" w0 = (Ok false, said l w0)).
  { destruct Hfile as [Hnone|(data & Hsome & Hbad)].
    - eexists. by apply load_session_missing.
    - eexists. by eapply load_session_undecodable. }
  destruct Hload as (l & Hload).
  rewrite (bind_ok _ _ _ _ _ Hload). cbn [negb]. rewrite bind_print.
  by eexists.
Qed.


End MoreProperties.

(** ** The tool server *)

Section ServerProperties.
Context `{Platform}.
Variables (DEFAULT_USERNAME DEFAULT_PASSWORD : string).
Variable default_headers : list (string * string).

Lemma returns_modify f : returns (modify f).
Proof. intros w. by exists tt. Qed.

Lemma returns_load_session filename : returns (load_session filename).
Proof.
  intros w. destruct (load_session_returns filename w) as (b & jar & l & Hrun).
  exists b. by rewrite Hrun.
Qed.

Lemma steps_quiet w w' : steps w w' -> quiet w w'.
Proof. by intros [_ Hnew]. Qed.

Lemma quiet_trans w1 w2 w3 : quiet w1 w2 -> quiet w2 w3 -> quiet w1 w3.
Proof.
  intros (n1 & Ht1 & Hn1) (n2 & Ht2 & Hn2). exists (n1 ++ n2). split.
  - by rewrite Ht2, Ht1, app_assoc.
  - by apply Forall_app.
Qed.

Lemma quiet_new_login w :
  quiet w (new_login DEFAULT_USERNAME DEFAULT_PASSWORD default_headers w).
Proof. exists []. split; [by rewrite app_nil_r | constructor]. Qed.

Lemma server_fresh_login_keeps :
  keeps (server_fresh_login DEFAULT_USERNAME DEFAULT_PASSWORD).
Proof.
  unfold server_fresh_login, log_info, log_error.
  repeat first
    [ apply get_initial_auth_params_keeps | apply perform_login_keeps
    | apply test_authenticated_access_keeps | apply save_session_keeps
    | step_keeps ].
Qed.

Lemma server_fresh_login_returns :
  returns (server_fresh_login DEFAULT_USERNAME DEFAULT_PASSWORD).
Proof.
  unfold server_fresh_login, log_info, log_error.
  repeat first
    [ apply get_initial_auth_params_returns | apply perform_login_returns
    | apply test_authenticated_access_returns | apply save_session_returns
    | step_returns ].
Qed.

(** The server's own authentication raises nothing and posts no payload. *)
Lemma server_ensure_authenticated_run has_login w :
  exists b w',
    server_ensure_authenticated DEFAULT_USERNAME DEFAULT_PASSWORD
      default_headers has_login w = (Ok b, w') /\
    quiet w w'.
Proof.
  unfold server_ensure_authenticated.
  assert (Hrest : forall (k : M bool) w0,
            returns k -> keeps k -> quiet w w0 ->
            exists b w', k w0 = (Ok b, w') /\ quiet w w').
  { intros k w0 Hr Hk Hq. destruct (Hr w0) as [b Hb]. specialize (Hk w0).
    destruct (k w0) as [res w'] eqn:Hrun. cbn [fst snd] in *. subst res.
    exists b, w'. split; [done|].
    eapply quiet_trans; [exact Hq | by apply steps_quiet]. }
  destruct has_login.
  - rewrite bind_ret. apply Hrest.
    + unfold log_info.
      repeat first
        [ apply returns_load_session | apply test_authenticated_access_returns
        | apply server_fresh_login_returns | step_returns ].
    + unfold log_info.
      repeat first
        [ apply load_session_keeps | apply test_authenticated_access_keeps
        | apply server_fresh_login_keeps | step_keeps ].
    + apply steps_quiet, steps_refl.
  - rewrite bind_modify. apply Hrest.
    + unfold log_info.
      repeat first
        [ apply returns_load_session | apply test_authenticated_access_returns
        | apply server_fresh_login_returns | step_returns ].
    + unfold log_info.
      repeat first
        [ apply load_session_keeps | apply test_authenticated_access_keeps
        | apply server_fresh_login_keeps | step_keeps ].
    + apply quiet_new_login.
Qed.

Lemma apply_coa_run_extends d tin tout r t w :
  exists b w' new,
    apply_coa d tin tout r t w = (Ok b, w') /\ trace w' = trace w ++ new.
Proof.
  destruct (apply_coa_returns d tin tout r t w) as [b Hb].
  pose proof (apply_coa_outcome d tin tout r t w) as Hout.
  destruct (apply_coa d tin tout r t w) as [res w'] eqn:Hrun.
  cbn [fst snd] in *. subst res. exists b, w'.
  destruct Hout; eauto.
Qed.

Lemma try_except_ok {A} (c : M A) (h : Exn -> M A) w a w' :
  c w = (Ok a, w') -> try_except c h w = (Ok a, w').
Proof. intros Hc. unfold try_except. by rewrite Hc. Qed.

Lemma answers_once_try c h w : answers_once c w -> answers_once (try_except c h) w.
Proof.
  intros (item & w' & new & Hrun & Htr). exists item, w', new.
  split; [by apply try_except_ok | done].
Qed.

Lemma answers_once_ret item w : answers_once (ret [item]) w.
Proof. exists item, w, []. split; [done | by rewrite app_nil_r]. Qed.

Lemma handle_apply_coa_answers arguments w :
  answers_once (_handle_apply_coa arguments) w.
Proof.
  unfold _handle_apply_coa. apply answers_once_try. cbv zeta.
  destruct (opt_truthy (dict_get "date" arguments)); cbn [negb];
    [|apply answers_once_ret].
  destruct (negb (opt_truthy (dict_get "time_in" arguments))
            && negb (opt_truthy (dict_get "time_out" arguments)));
    [apply answers_once_ret|].
  unfold log_info. unfold answers_once. rewrite bind_print.
  destruct (apply_coa_run_extends
              (default "" (dict_get "date" arguments))
              (dict_get "time_in" arguments) (dict_get "time_out" arguments)
              (default "forgot to in/out" (dict_get "reason" arguments))
              (default "forgot to in/out" (dict_get "type_description" arguments))
              (said (line ("INFO:engie-hr-mcp:" +:+ "Applying COA for {} - IN: {}, OUT: {}")
                       [opt_val (dict_get "date" arguments);
                        opt_val (dict_get "time_in" arguments);
                        opt_val (dict_get "time_out" arguments)]) w))
    as (b & w' & new & Hrun & Htr).
  rewrite (bind_ok _ _ _ _ _ Hrun). destruct b; by eexists _, w', new.
Qed.

Lemma handle_clock_in_answers now_date now_time arguments w :
  answers_once (_handle_clock_in now_date now_time arguments) w.
Proof.
  unfold _handle_clock_in. apply answers_once_try. cbv zeta.
  unfold log_info, answers_once. rewrite bind_print.
  match goal with
  | |- context [bind (apply_coa ?d ?ti ?to ?r ?t) _ ?w0] =>
      destruct (apply_coa_run_extends d ti to r t w0)
        as (b & w' & new & Hrun & Htr)
  end.
  rewrite (bind_ok _ _ _ _ _ Hrun). destruct b; by eexists _, w', new.
Qed.

Lemma handle_clock_out_answers now_date now_time arguments w :
  answers_once (_handle_clock_out now_date now_time arguments) w.
Proof.
  unfold _handle_clock_out. apply answers_once_try. cbv zeta.
  unfold log_info, answers_once. rewrite bind_print.
  match goal with
  | |- context [bind (apply_coa ?d ?ti ?to ?r ?t) _ ?w0] =>
      destruct (apply_coa_run_extends d ti to r t w0)
        as (b & w' & new & Hrun & Htr)
  end.
  rewrite (bind_ok _ _ _ _ _ Hrun). destruct b; by eexists _, w', new.
Qed.

(** X18. A tool call is answered with exactly one text item and raises
    nothing, for every tool name and every argument dict.  The server
    authenticates before it looks at the name: when that fails, or when
    the name is none of [apply_coa], [clock_in], [clock_out], the answer
    is the authentication failure or [Unknown tool] and no exchange of the
    call carries a payload. *)
Theorem tool_call_answers_once (has_login : bool) (now_date now_time : string)
    (name : string) (arguments : option (list (string * string))) (w : World) :
  exists item w' new,
    handle_call_tool DEFAULT_USERNAME DEFAULT_PASSWORD default_headers
      has_login now_date now_time name arguments w = (Ok [item], w') /\
    trace w' = trace w ++ new /\
    (name <> "apply_coa" -> name <> "clock_in" -> name <> "clock_out" ->
     Forall no_payload new /\
     (item = {| fmt := "❌ Unknown tool: {}"; args := [VStr name] |} \/
      item = {| fmt := "❌ Failed to authenticate with ENGIE HR Hub. Please check credentials and network connection.";
                args := [] |})).
Proof.
  unfold handle_call_tool.
  destruct (server_ensure_authenticated_run has_login w)
    as (b & w1 & Hauth & new1 & Htr1 & Hq1).
  assert (Htool : forall c : M (list Line),
            answers_once c w1 ->
            (name <> "apply_coa" -> name <> "clock_in" -> name <> "clock_out" -> False) ->
            exists item w' new,
              c w1 = (Ok [item], w') /\ trace w' = trace w ++ new /\
              (name <> "apply_coa" -> name <> "clock_in" -> name <> "clock_out" ->
               Forall no_payload new /\
               (item = {| fmt := "❌ Unknown tool: {}"; args := [VStr name] |} \/
                item = {| fmt := "❌ Failed to authenticate with ENGIE HR Hub. Please check credentials and network connection.";
                          args := [] |}))).
  { intros c (item & w' & new & Hrun & Htr) Hname.
    exists item, w', (new1 ++ new). split; [done|].
    split; [by rewrite Htr, Htr1, app_assoc|].
    intros H1 H2 H3. by destruct Hname. }
  assert (Hquiet : forall item,
            item = {| fmt := "❌ Unknown tool: {}"; args := [VStr name] |} \/
            item = {| fmt := "❌ Failed to authenticate with ENGIE HR Hub. Please check credentials and network connection.";
                      args := [] |} ->
            exists item0 w' new,
              (Ok [item], w1) = (Ok [item0], w') /\ trace w' = trace w ++ new /\
              (name <> "apply_coa" -> name <> "clock_in" -> name <> "clock_out" ->
               Forall no_payload new /\
               (item0 = {| fmt := "❌ Unknown tool: {}"; args := [VStr name] |} \/
                item0 = {| fmt := "❌ Failed to authenticate with ENGIE HR Hub. Please check credentials and network connection.";
                           args := [] |}))).
  { intros item Hitem. by exists item, w1, new1. }
  unfold try_except. rewrite (bind_ok _ _ _ _ _ Hauth).
  destruct b; cbn [negb].
  2: { unfold ret. apply Hquiet. by right. }
  destruct (String.eqb_spec name "apply_coa") as [->|Hn1].
  { destruct (Htool _ (handle_apply_coa_answers (default [] arguments) w1))
      as (item & w' & new & Hrun & Hrest); [by intros ?|].
    rewrite Hrun. by exists item, w', new. }
  destruct (String.eqb_spec name "clock_in") as [->|Hn2].
  { destruct (Htool _ (handle_clock_in_answers now_date now_time
                         (default [] arguments) w1))
      as (item & w' & new & Hrun & Hrest); [by intros ? ?|].
    rewrite Hrun. by exists item, w', new. }
  destruct (String.eqb_spec name "clock_out") as [->|Hn3].
  { destruct (Htool _ (handle_clock_out_answers now_date now_time
                         (default [] arguments) w1))
      as (item & w' & new & Hrun & Hrest); [by intros ? ? ?|].
    rewrite Hrun. by exists item, w', new. }
  unfold ret. apply Hquiet. by left.
Qed.

(** The handler of the [apply_coa] tool, when an argument is missing. *)
Lemma handle_apply_coa_missing_arguments (arguments : list (string * string))
    (w : World) :
  (opt_truthy (dict_get "date" arguments) = false ->
   _handle_apply_coa arguments w =
     (Ok [{| fmt := "❌ Date parameter is required in YYYY-MM-DD format";
             args := [] |}], w)) /\
  (opt_truthy (dict_get "date" arguments) = true ->
   opt_truthy (dict_get "time_in" arguments) = false ->
   opt_truthy (dict_get "time_out" arguments) = false ->
   _handle_apply_coa arguments w =
     (Ok [{| fmt := "❌ Either time_in or time_out (or both) must be provided";
             args := [] |}], w)).
Proof.
  unfold _handle_apply_coa, try_except. cbv zeta. split.
  - by intros ->.
  - by intros -> -> ->.
Qed.

(** X19. The [apply_coa] tool checks its arguments before it calls the
    client.  When [date] is missing or empty, or when neither [time_in]
    nor [time_out] is given, the call is answered with the date-required
    text or the time-required text (or with the authentication failure,
    since the server authenticates first), and no exchange of the call
    carries a payload. *)
Theorem apply_coa_tool_needs_date_and_time (has_login : bool)
    (now_date now_time : string) (arguments : list (string * string))
    (w : World) :
  opt_truthy (dict_get "date" arguments) = false \/
  (opt_truthy (dict_get "time_in" arguments) = false /\
   opt_truthy (dict_get "time_out" arguments) = false) ->
  exists item w' new,
    handle_call_tool DEFAULT_USERNAME DEFAULT_PASSWORD default_headers
      has_login now_date now_time "apply_coa" (Some arguments) w
      = (Ok [item], w') /\
    trace w' = trace w ++ new /\ Forall no_payload new /\
    (fmt item = "❌ Failed to authenticate with ENGIE HR Hub. Please check credentials and network connection." \/
     fmt item = "❌ Date parameter is required in YYYY-MM-DD format" \/
     fmt item = "❌ Either time_in or time_out (or both) must be provided").
Proof.
  intros Hmissing. unfold handle_call_tool, try_except.
  destruct (server_ensure_authenticated_run has_login w)
    as (b & w1 & Hauth & new & Htr & Hq).
  rewrite (bind_ok _ _ _ _ _ Hauth). destruct b; cbn [negb].
  2: { eexists _, w1, new. split; [reflexivity|]. by auto. }
  cbn [String.eqb Ascii.eqb Bool.eqb default]. unfold id.
  destruct (handle_apply_coa_missing_arguments arguments w1) as [Hdate Htimes].
  destruct (opt_truthy (dict_get "date" arguments)) eqn:Hd.
  - destruct Hmissing as [?|[Hin Hout]]; [done|].
    rewrite (Htimes eq_refl Hin Hout). eexists _, w1, new.
    split; [reflexivity|]. by auto.
  - rewrite (Hdate eq_refl). eexists _, w1, new.
    split; [reflexivity|]. by auto.
Qed.

Lemma coa_payload_in_run d tin tout r t w0 w new ev j :
  trace w0 = trace w ->
  trace (apply_coa d tin tout r t w0).2 = trace w ++ new ->
  ev ∈ new ->
  body (request ev) = JsonBody j ->
  opt_truthy tin || opt_truthy tout = true /\
  exists employee_id,
    employee_id <> 0 /\
    j = coa_payload employee_id r t (certificate_logs d tin tout).
Proof.
  intros Htr0 Htrace Hev Hbody. rewrite <- Htr0 in Htrace. split.
  - destruct (opt_truthy tin || opt_truthy tout) eqn:Htimes; [done|].
    destruct (apply_coa_stops_early d tin tout r t w0) as (_ & new' & Htr & Hall);
      [by left|].
    rewrite Htr in Htrace. apply app_inv_head in Htrace. subst new'.
    rewrite Forall_forall in Hall. by destruct (Hall ev Hev j).
  - by eapply apply_coa_posts_built_payload.
Qed.

(** X20. The clock tools are submissions with one record.  Every payload
    that a [clock_in] call posts holds exactly one record, of type In, for
    the date and the time of the call (the arguments [date] and [time],
    or today's date and the time of the call when they are not given),
    with the remark [Clock in via MCP]; a [clock_out] call posts the same
    with one record of type Out and the remark [Clock out via MCP]. *)
Theorem clock_tools_post_one_record (now_date now_time : string)
    (arguments : list (string * string)) (w : World) (new : list Event)
    (ev : Event) (j : json) :
  let target_date := default now_date (dict_get "date" arguments) in
  let target_time := default now_time (dict_get "time" arguments) in
  ev ∈ new ->
  body (request ev) = JsonBody j ->
  (trace (_handle_clock_in now_date now_time arguments w).2 = trace w ++ new ->
   exists employee_id,
     employee_id <> 0 /\
     j = coa_payload employee_id "Clock in via MCP" "Clock in"
           [log_entry target_date target_time "In"]) /\
  (trace (_handle_clock_out now_date now_time arguments w).2 = trace w ++ new ->
   exists employee_id,
     employee_id <> 0 /\
     j = coa_payload employee_id "Clock out via MCP" "Clock out"
           [log_entry target_date target_time "Out"]).
Proof.
  intros target_date target_time Hev Hbody.
  split; unfold _handle_clock_in, _handle_clock_out, try_except, log_info;
    cbv zeta; fold target_date; fold target_time; rewrite bind_print;
    match goal with
    | |- context [bind (apply_coa ?d ?ti ?to ?r ?t) _ ?w0] =>
        destruct (apply_coa_returns d ti to r t w0) as [b Hb];
        pose proof (coa_payload_in_run d ti to r t w0 w new ev j eq_refl) as Hpay;
        destruct (apply_coa d ti to r t w0) as [res w1] eqn:Hrun;
        cbn [fst snd] in Hb, Hpay; subst res;
        rewrite (bind_ok _ _ _ _ _ Hrun)
    end;
    (destruct b; unfold ret; cbn [snd]; intros Htr;
     destruct (Hpay Htr Hev Hbody) as (Htimes & employee_id & Hid & ->);
     exists employee_id; (split; [done|]);
     unfold certificate_logs; cbn [opt_truthy orb] in *;
     rewrite ?orb_false_r in Htimes; by rewrite Htimes).
Qed.

End ServerProperties.

(** ** The user information and the interactive caller *)

Section UserInfoProperties.
Context `{Platform} `{Tables}.










(** X22. [main] asks for the credentials before anything else: when the
    user name, or the password, is empty once the white space around it
    is removed, the program ends with [sys.exit(1)]; it has sent nothing,
    read no session file and changed neither the jar nor the files. *)
Theorem main_blank_credentials (user pass : string)
    (default_headers : list (string * string))
    (typed_username typed_password : string) (w : World) :
  strip typed_username = "" \/ strip typed_password = "" ->
  exists w',
    main user pass default_headers typed_username typed_password w
      = (Ok (SysExit 1), w') /\
    trace w' = trace w /\ cookies w' = cookies w /\ files w' = files w.
Proof.
  intros Hblank. unfold main. rewrite !bind_print. cbv zeta.
  destruct (str_truthy (strip typed_username)) eqn:Hu; cbn [negb].
  2: { rewrite bind_print. by eexists. }
  destruct Hblank as [Hb|Hb]; [by rewrite Hb in Hu|].
  rewrite bind_print, Hb. cbn [str_truthy negb]. rewrite bind_print.
  by eexists.
Qed.


End UserInfoProperties.

(** * The further properties on concrete runs *)


Lemma accepted_means_committed_witness :
  exists pre v c payload,
    trace (demo_submit demo_saved_files 200 200 "2025-07-20").2 = pre ++ [v; c] /\
    Forall no_payload pre /\
    posts "https://engie.hrhub.ph/CertificateOfAttendance.aspx/ValidateSameFiling"
      payload v /\ passed v /\
    posts "https://engie.hrhub.ph/CertificateOfAttendance.aspx/Save" payload c /\
    passed c.
Proof.
  apply (@accepted_means_committed demo_platform "2025-07-20"
           (Some "09:32") (Some "17:30") "forgot to in/out" "forgot to in/out"
           (demo_world demo_saved_files (demo_portal 200 200 demo_accept_body))
           (trace (demo_submit demo_saved_files 200 200 "2025-07-20").2)).
  - vm_compute. reflexivity.
  - reflexivity.
Defined.

Lemma commit_follows_validation_witness :
  exists pre v,
    trace (demo_submit demo_saved_files 200 500 "2025-07-20").2
      = pre ++ [v; demo_event 3 (demo_submit demo_saved_files 200 500 "2025-07-20").2] /\
    method (request v) = POST /\
    target (request v)
      = "https://engie.hrhub.ph/CertificateOfAttendance.aspx/ValidateSameFiling" /\
    body (request v)
      = body (request (demo_event 3 (demo_submit demo_saved_files 200 500 "2025-07-20").2)) /\
    passed v.
Proof.
  apply (@commit_follows_validation demo_platform "2025-07-20"
           (Some "09:32") (Some "17:30") "forgot to in/out" "forgot to in/out"
           (demo_world demo_saved_files (demo_portal 200 500 demo_accept_body))
           (trace (demo_submit demo_saved_files 200 500 "2025-07-20").2)
           (demo_event 3 (demo_submit demo_saved_files 200 500 "2025-07-20").2)).
  - reflexivity.
  - apply (list_elem_of_lookup_2 _ 3%nat). vm_compute. reflexivity.
  - split; [vm_compute; reflexivity|]. split; [vm_compute; reflexivity|].
    eexists. vm_compute. reflexivity.
Defined.

Lemma load_session_edge_documents_witness :
  exists w',
    @load_session demo_platform "engie_session.json"
      (with_cookies {[ "session" := JStr "old" ]}
         (demo_world
            {[ "engie_session.json" :=
                 Some (JObj [("cookies", JObj [("session", JNull)])]) ]}
            demo_offline)) = (Ok true, w') /\
    cookies w' = delete "session" ({[ "session" := JStr "old" ]} : gmap string json).
Proof.
  assert (Hfile :
    files (with_cookies {[ "session" := JStr "old" ]}
             (demo_world
                {[ "engie_session.json" :=
                     Some (JObj [("cookies", JObj [("session", JNull)])]) ]}
                demo_offline)) !! "engie_session.json"
    = Some (Some (JObj [("cookies", JObj [("session", JNull)])])))
    by (vm_compute; reflexivity).
  destruct (proj2 (proj2 (@load_session_edge_documents demo_platform
              "engie_session.json" _ _ _ Hfile eq_refl))
              [("cookies", JObj [("session", JNull)])] [] "session"
              eq_refl eq_refl)
    as (w' & Hrun & Hjar & _).
  exists w'. split; [exact Hrun | exact Hjar].
Defined.

Lemma authenticated_means_probe_passed_witness :
  exists pre ev resp,
    trace (@_ensure_authenticated demo_platform
             (demo_world ∅ (demo_portal 200 200 demo_accept_body))).2
      = pre ++ [ev] /\
    method (request ev) = GET /\
    target (request ev) = "https://engie.hrhub.ph/EmployeeDashboard.aspx" /\
    answered ev resp /\ status_code resp = 200 /\
    py_in "Employee Dashboard" (text resp) = true.
Proof.
  apply (@authenticated_means_probe_passed demo_platform
           (demo_world ∅ (demo_portal 200 200 demo_accept_body))).
  vm_compute. reflexivity.
Defined.

Lemma perform_login_without_form_witness :
  exists w',
    @perform_login demo_platform "user" "secret"
      (demo_world ∅ (demo_portal 200 200 demo_accept_body)) = (Ok false, w') /\
    trace w' = [] /\ cookies w' = ∅.
Proof.
  apply (@perform_login_without_form demo_platform "user" "secret"
           (demo_world ∅ (demo_portal 200 200 demo_accept_body))).
  reflexivity.
Defined.

Lemma perform_login_success_path_witness :
  exists p1 p2,
    trace (@perform_login demo_platform "user" "secret"
             (@get_initial_auth_params demo_platform
                (demo_world ∅ (demo_portal 200 200 demo_accept_body))).2).2
      = trace (@get_initial_auth_params demo_platform
                 (demo_world ∅ (demo_portal 200 200 demo_accept_body))).2
        ++ [p1; p2] /\
    body (request p1)
      = FormData [("username", "user"); ("password", "secret"); ("credentialId", "")].
Proof.
  destruct (@perform_login_success_path demo_platform "user" "secret"
              (@get_initial_auth_params demo_platform
                 (demo_world ∅ (demo_portal 200 200 demo_accept_body))).2)
    as (action & p1 & p2 & landing & _ & Htrace & _ & _ & Hbody & _).
  - vm_compute. reflexivity.
  - exists p1, p2. split; [exact Htrace | exact Hbody].
Defined.


Lemma cli_needs_saved_session_witness :
  exists w',
    @cli_main demo_platform "user" "secret" [] (demo_args "2025-07-20" (Some "09:32"))
      (demo_world demo_saved_files (demo_portal 200 200 demo_accept_body))
    = (Ok 1, w') /\
    trace w' = [] /\ files w' = demo_saved_files.
Proof.
  apply (@cli_needs_saved_session demo_platform "user" "secret" []
           (demo_args "2025-07-20" (Some "09:32"))
           (demo_world demo_saved_files (demo_portal 200 200 demo_accept_body))
           {| year := 2025; month := 7; day := 20 |}).
  - reflexivity.
  - reflexivity.
  - left. vm_compute. reflexivity.
Defined.

Lemma apply_coa_tool_needs_date_and_time_witness :
  exists item w' new,
    @handle_call_tool demo_platform "user" "secret" [] false "2025-07-20" "09:00"
      "apply_coa" (Some [("date", "2025-07-20")])
      (demo_world ∅ (demo_portal 200 200 demo_accept_body)) = (Ok [item], w') /\
    trace w' = [] ++ new /\ Forall no_payload new /\
    (fmt item = "❌ Failed to authenticate with ENGIE HR Hub. Please check credentials and network connection." \/
     fmt item = "❌ Date parameter is required in YYYY-MM-DD format" \/
     fmt item = "❌ Either time_in or time_out (or both) must be provided").
Proof.
  apply (@apply_coa_tool_needs_date_and_time demo_platform "user" "secret" []
           false "2025-07-20" "09:00" [("date", "2025-07-20")]
           (demo_world ∅ (demo_portal 200 200 demo_accept_body))).
  right. split; reflexivity.
Defined.

Lemma clock_tools_post_one_record_witness :
  exists employee_id,
    employee_id <> 0 /\
    coa_payload 6033 "Clock in via MCP" "Clock in"
      [log_entry "2025-07-21" "09:00" "In"]
    = coa_payload employee_id "Clock in via MCP" "Clock in"
        [log_entry "2025-07-21" "09:00" "In"].
Proof.
  refine (proj1 (@clock_tools_post_one_record demo_platform "2025-07-21" "09:00" []
           (demo_world demo_saved_files (demo_portal 200 200 demo_accept_body))
           (trace (@_handle_clock_in demo_platform "2025-07-21" "09:00" []
                     (demo_world demo_saved_files
                        (demo_portal 200 200 demo_accept_body))).2)
           (nth 2 (trace (@_handle_clock_in demo_platform "2025-07-21" "09:00" []
                     (demo_world demo_saved_files
                        (demo_portal 200 200 demo_accept_body))).2)
                (exchanged (probe_request (demo_world ∅ demo_offline))
                   (demo_world ∅ demo_offline)))
           _ _ _) _).
  - apply (list_elem_of_lookup_2 _ 2%nat). vm_compute. reflexivity.
  - vm_compute. reflexivity.
  - reflexivity.
Defined.

Lemma main_blank_credentials_witness :
  exists w',
    @main demo_platform demo_tables "user" "secret" [] "  " "secret"
      (demo_world demo_saved_files (demo_portal 200 200 demo_accept_body))
    = (Ok (SysExit 1), w') /\
    trace w' = [] /\ cookies w' = ∅ /\ files w' = demo_saved_files.
Proof.
  apply (@main_blank_credentials demo_platform demo_tables "user" "secret" []
           "  " "secret"
           (demo_world demo_saved_files (demo_portal 200 200 demo_accept_body))).
  left. reflexivity.
Defined.


